(** * ertza: serial machine commands, OSC correlation ids, GPIO watchers

    A shallow embedding of
      - [ertza/commands/serial/MachineCommands.py]  (MachineSet, MachineGet),
      - [ertza/processors/osc/Osc.py]               (OscMessage.uid),
      - [ertza/remotes/gpio.py]                     (SwitchHandler, TempWatcher),
    with Python's exceptions made explicit: every operation that can raise
    returns a [pyresult]. *)

From Stdlib Require Import String Ascii List ZArith Bool Lia Floats DecimalString.
From stdpp Require Import base option gmap strings.
Import ListNotations.

Set Warnings "-inexact-float".

Local Open Scope string_scope.
Local Open Scope list_scope.

(** ** Python exceptions *)

Module Py.

(** The exception classes the modelled code can meet.  All of them derive
    from [Exception]; [IOError] is the only one [get_temperature] names. *)
Inductive exn_class :=
| ValueError
| UnboundLocalError
| KeyError
| AttributeError
| NameError
| IndexError
| TypeError
| ZeroDivisionError
| IOError.

Record exn := Exn { exn_cls : exn_class; exn_msg : string }.

(** [str(e)] *)
Definition str (e : exn) : string := exn_msg e.

Inductive pyresult (A : Type) :=
| Return (a : A)
| Raise (e : exn).
Arguments Return {A} a.
Arguments Raise {A} e.

Definition bind {A B} (r : pyresult A) (k : A -> pyresult B) : pyresult B :=
  match r with
  | Return a => k a
  | Raise e => Raise e
  end.

End Py.
Import Py.

(** ** Strings as Python uses them here *)

Module Str.

(** [s.replace(old, new)] for one-character [old] and [new]: every
    occurrence is replaced. *)
Fixpoint replace_char (old new : ascii) (s : string) : string :=
  match s with
  | EmptyString => EmptyString
  | String c s' =>
      String (if Ascii.eqb c old then new else c) (replace_char old new s')
  end.

(** [s.startswith(p)] *)
Fixpoint startswith (p s : string) : bool :=
  match p, s with
  | EmptyString, _ => true
  | String a p', String b s' => Ascii.eqb a b && startswith p' s'
  | String _ _, EmptyString => false
  end.

(** [s[n:]] *)
Fixpoint drop (n : nat) (s : string) : string :=
  match n, s with
  | O, _ => s
  | S n', String _ s' => drop n' s'
  | S _, EmptyString => EmptyString
  end.

(** [p in s] *)
Fixpoint contains (p s : string) : bool :=
  startswith p s ||
  match s with
  | EmptyString => false
  | String _ s' => contains p s'
  end.

(** [s.replace(old, '', 1)]: the leftmost occurrence of [old] is removed,
    and only that one.  [old] is not empty at any call site. *)
Fixpoint remove_first (old s : string) : string :=
  if startswith old s then drop (String.length old) s
  else match s with
       | EmptyString => EmptyString
       | String c s' => String c (remove_first old s')
       end.

(** [s.split(sep)] for a one-character separator. *)
Fixpoint split (sep : ascii) (s : string) : list string :=
  match s with
  | EmptyString => [EmptyString]
  | String c s' =>
      if Ascii.eqb c sep then EmptyString :: split sep s'
      else match split sep s' with
           | seg :: segs => String c seg :: segs
           | [] => [String c EmptyString]
           end
  end.

(** [c not in s] *)
Fixpoint lacks_char (c : ascii) (s : string) : bool :=
  match s with
  | EmptyString => true
  | String d s' => negb (Ascii.eqb d c) && lacks_char c s'
  end.

(** [sep.join(l)] *)
Fixpoint join (sep : string) (l : list string) : string :=
  match l with
  | [] => EmptyString
  | s :: rest =>
      match rest with
      | [] => s
      | _ :: _ => String.append s (String.append sep (join sep rest))
      end
  end.

End Str.

(** ** ertza/commands/serial/MachineCommands.py *)

Module MachineCommands.

(** What a handler leaves on the outlet of the processor that submitted the
    command.

    Modelled from the spec: [SerialCommand.ok] and [SerialCommand.error]
    (ertza/commands/SerialCommand.py is not part of the sources).  Section
    4.3: a success reply carries the alias with an "ok" marker and the
    handler's reply arguments, a failure reply carries the alias with an
    "error" marker and the diagnostic arguments; either one is pushed on
    the originating outlet. *)
Inductive reply :=
| ok (alias : string) (args : list string)
| error (alias : string) (args : list string).

(** The object behind [self.machine]: subscripting may raise. *)
Class Machine (M : Type) : Type := {
  getitem : M -> string -> pyresult string;
  setitem : M -> string -> string -> pyresult M
}.

(** The observable result of one [execute] call: the machine afterwards, the
    replies pushed on the outlet (oldest first), and the exception that
    left [execute], if one did. *)
Record outcome (M : Type) := Outcome {
  machine : M;
  outlet : list reply;
  escaped : option exn
}.
Arguments Outcome {M} machine outlet escaped.
Arguments machine {M} o.
Arguments outlet {M} o.
Arguments escaped {M} o.

(** ['Invalid number of arguments for %s' % self.alias] *)
Definition invalid_arguments (alias : string) : string :=
  String.append "Invalid number of arguments for " alias.

(** [k.replace('.', ':')] *)
Definition canonical_key (k : string) : string :=
  Str.replace_char "." ":" k.

(** What the body of a [try] block leaves behind: the machine, the replies
    already sent, the binding of the local [k] ([None] while unbound) and
    how the block ended. *)
Record attempt (M : Type) := Attempt {
  att_machine : M;
  att_outlet : list reply;
  att_k : option string;
  att_end : pyresult unit
}.
Arguments Attempt {M} att_machine att_outlet att_k att_end.
Arguments att_machine {M} a.
Arguments att_outlet {M} a.
Arguments att_k {M} a.
Arguments att_end {M} a.

(** [except Exception as e: self.error(c, k, str(e))].  Reading [k] while
    it is unbound raises [UnboundLocalError] out of the handler. *)
Definition except_Exception {M} (alias : string) (a : attempt M) : outcome M :=
  match att_end a with
  | Return _ => Outcome (att_machine a) (att_outlet a) None
  | Raise e =>
      match att_k a with
      | Some k =>
          Outcome (att_machine a)
                  (att_outlet a ++ [error alias [k; str e]]) None
      | None =>
          Outcome (att_machine a) (att_outlet a)
                  (Some (Exn UnboundLocalError
                             "local variable 'k' referenced before assignment"))
      end
  end.

Module MachineSet.

Definition alias : string := "machine.set".

(** The [try] block of [MachineSet.execute]. *)
Definition try_body {M} `{Machine M} (m : M) (args : list string) : attempt M :=
  match args with
  | [k; v] =>                                   (* k, v, = c.args *)
      let nk := canonical_key k in
      match setitem m nk v with                 (* self.machine[nk] = v *)
      | Return m' => Attempt m' [ok alias [k; v]] (Some k) (Return tt)
      | Raise e => Attempt m [] (Some k) (Raise e)
      end
  | _ :: _ :: _ :: _ =>
      Attempt m [] None
              (Raise (Exn ValueError "too many values to unpack (expected 2)"))
  | _ =>
      Attempt m [] None
              (Raise (Exn ValueError "not enough values to unpack (expected 2)"))
  end.

Definition execute {M} `{Machine M} (m : M) (args : list string) : outcome M :=
  if (length args <? 2)%nat then
    Outcome m [error alias [invalid_arguments alias]] None
  else
    except_Exception alias (try_body m args).

End MachineSet.

Module MachineGet.

Definition alias : string := "machine.get".

(** The [try] block of [MachineGet.execute]. *)
Definition try_body {M} `{Machine M} (m : M) (args : list string) : attempt M :=
  match args with
  | [k] =>                                      (* k, = c.args *)
      let nk := canonical_key k in
      match getitem m nk with                   (* v = self.machine[nk] *)
      | Return v => Attempt m [ok alias [k; v]] (Some k) (Return tt)
      | Raise e => Attempt m [] (Some k) (Raise e)
      end
  | _ :: _ :: _ =>
      Attempt m [] None
              (Raise (Exn ValueError "too many values to unpack (expected 1)"))
  | [] =>
      Attempt m [] None
              (Raise (Exn ValueError "not enough values to unpack (expected 1)"))
  end.

Definition execute {M} `{Machine M} (m : M) (args : list string) : outcome M :=
  if negb (length args =? 1)%nat then
    Outcome m [error alias [invalid_arguments alias]] None
  else
    except_Exception alias (try_body m args).

End MachineGet.

(** Modelled from the spec: the [Machine] class (ertza/machine.py is not
    part of the sources).  Section 3, MachineStore: a mapping from canonical
    path to scalar value, keys unique, last write wins, no conversion of
    the stored value; section 4.2: reading an absent path fails with
    UnknownKeyError.  The key is the colon-delimited string the handlers
    pass. *)
Definition UnknownKeyError (nk : string) : exn :=
  Exn KeyError (String.append "UnknownKeyError: " nk).

#[export] Instance MachineStore : Machine (gmap string string) := {
  getitem m nk :=
    match m !! nk with
    | Some v => Return v
    | None => Raise (UnknownKeyError nk)
    end;
  setitem m nk v := Return (<[nk := v]> m)
}.

(** A caller's command, after alias resolution. *)
Inductive call :=
| machine_set (args : list string)
| machine_get (args : list string).

Definition run_call {M} `{Machine M} (m : M) (c : call) : outcome M :=
  match c with
  | machine_set args => MachineSet.execute m args
  | machine_get args => MachineGet.execute m args
  end.

(** The machine after a sequence of calls, oldest first. *)
Fixpoint run_calls {M} `{Machine M} (m : M) (cs : list call) : M :=
  match cs with
  | [] => m
  | c :: cs' => run_calls (machine (run_call m c)) cs'
  end.

(** The two delimiters a key may be written with. *)
Definition is_delimiter (c : ascii) : bool :=
  Ascii.eqb c "." || Ascii.eqb c ":".

(** Two keys that differ only in which delimiter stands at each delimiter
    position, such as "a.b" and "a:b". *)
Fixpoint same_up_to_delimiters (a b : string) : bool :=
  match a, b with
  | EmptyString, EmptyString => true
  | String c a', String d b' =>
      (Ascii.eqb c d || (is_delimiter c && is_delimiter d))
      && same_up_to_delimiters a' b'
  | _, _ => false
  end.

(** A call that writes the canonical path [nk]: [machine.set] with exactly a
    key and a value, the key canonicalizing to [nk]. *)
Definition sets_path (nk : string) (c : call) : bool :=
  match c with
  | machine_set [k; _] => String.eqb (canonical_key k) nk
  | _ => false
  end.

End MachineCommands.


(** ** ertza/processors/osc/Osc.py *)

Module Osc.

(** An OSC argument.  [OscMessage.__init__] turns exceptions into their
    [str]; every other argument is kept as it was given. *)
Inductive arg :=
| arg_str (s : string)
| arg_int (z : Z)
| arg_float (f : float).

(** The two attributes of an [OscMessage] that [uid] reads.  [path] is an
    [OscPath], a [str] subclass: [replace] and [in] act on its text. *)
Record OscMessage := {
  path : string;
  args : list arg
}.

(** [self.path.replace('/ok', '', 1).replace('/error', '', 1)] *)
Definition clean_path (m : OscMessage) : string :=
  Str.remove_first "/error" (Str.remove_first "/ok" (path m)).

(** [' '.join((clean_path, key_arg,))]: [join] accepts [str] items only. *)
Definition join_space (clean : string) (key_arg : arg) : pyresult string :=
  match key_arg with
  | arg_str s => Return (String.append clean (String.append " " s))
  | arg_int _ =>
      Raise (Exn TypeError "sequence item 1: expected str instance, int found")
  | arg_float _ =>
      Raise (Exn TypeError "sequence item 1: expected str instance, float found")
  end.

(** The [uid] property. *)
Definition uid (m : OscMessage) : pyresult string :=
  let clean := clean_path m in
  if Str.contains "/ping" clean then Return clean
  else
    match args m with
    | [] => Raise (Exn IndexError "tuple index out of range")   (* self.args[0] *)
    | key_arg :: _ => join_space clean key_arg
    end.

(** A message is ping-style when [uid] takes its first branch. *)
Definition is_ping (m : OscMessage) : bool :=
  Str.contains "/ping" (clean_path m).


(** *** OscPath, OscAddress and the rest of OscMessage *)

(** [OscPath.__init__]: [self.levels = self._p.split('/')] *)
Definition levels (p : string) : list string := Str.split "/" p.

(** [OscPath.__repr__] and [OscPath.__str__]: ['/'.join(self.levels)] *)
Definition OscPath_repr (p : string) : string := Str.join "/" (levels p).

(** [OscMessage.target]: [repr(self.path)] *)
Definition target (m : OscMessage) : string := OscPath_repr (path m).

(** [OscMessage.action]: [self.path.levels[-1]] *)
Definition action (m : OscMessage) : pyresult string :=
  match levels (path m) with
  | [] => Raise (Exn IndexError "list index out of range")
  | l :: ls => Return (List.last (l :: ls) l)
  end.

(** An address: a host name and a port number. *)
Record address := {
  hostname : string;
  port : Z
}.

(** An object handed to [OscAddress] as [address_object], by what
    [__init__] asks of it: its truth value, and what
    [copy(address_object.hostname)] and [int(copy(address_object.port))]
    evaluate to, each a value or the exception it raises (an attribute that
    is missing raises [AttributeError], a port that is no number
    [ValueError] or [TypeError]). *)
Record address_object := {
  truth : pyresult bool;
  copy_hostname : pyresult string;
  int_copy_port : pyresult Z
}.

(** [OscAddress.__init__(address_object=None, **kwargs)].  [None] stands for
    Python's [None], given or by default; [kw_hostname] and [kw_port] are
    the keywords of those names, [None] when not given. *)
Definition OscAddress_init
    (address_object : option address_object)
    (kw_hostname : option string) (kw_port : option Z) : pyresult address :=
  let from_keywords :=
    match kw_hostname with
    | Some h =>
        Return {| hostname := h;
                  port := match kw_port with Some p => p | None => 6970%Z end |}
    | None => Raise (Exn AttributeError "Missing arguments for creation.")
    end in
  match address_object with
  | None => from_keywords
  | Some o =>
      Py.bind (truth o) (fun b =>
      if b then
        Py.bind (copy_hostname o) (fun h =>
        Py.bind (int_copy_port o) (fun p =>
        Return {| hostname := h; port := p |}))
      else from_keywords)
  end.

(** An argument as handed to the constructor: a value, or an exception. *)
Inductive given_arg :=
| value (a : arg)
| exception (e : exn).

(** [str(a) if isinstance(a, Exception) else a] *)
Definition init_arg (g : given_arg) : arg :=
  match g with
  | value a => a
  | exception e => arg_str (str e)
  end.

(** The keywords of [OscMessage.__init__] that decide whether it returns.
    [None] is a keyword that was not given; a [sender] or [receiver] given
    as [None] is [Some None]. *)
Record keywords := {
  kw_types : option (list ascii);
  kw_sender : option (option address_object);
  kw_receiver : option (option address_object)
}.

(** A constructed message: its path and arguments, with the attributes
    [types], [sender] and [receiver]. *)
Record message := {
  msg : OscMessage;
  types : option (list ascii);
  sender : option address;
  receiver : option address
}.

(** The truth value of [self.types]: [None] and an empty sequence are
    false. *)
Definition has_types (t : option (list ascii)) : bool :=
  match t with
  | Some (_ :: _) => true
  | _ => false
  end.

(** [OscAddress(kwargs[name]) if name in kwargs else None] *)
Definition address_keyword (k : option (option address_object))
  : pyresult (option address) :=
  match k with
  | None => Return None
  | Some address_object =>
      Py.bind (OscAddress_init address_object None None)
              (fun a => Return (Some a))
  end.

(** What [OscAddress(address_object)] raises, told from the object:
    [None] and every object that is false are refused for want of a
    [hostname] keyword; an object that is true raises what reading its host
    name or converting its port raises. *)
Definition address_refused (address_object : option address_object) (e : exn)
  : Prop :=
  match address_object with
  | None => e = Exn AttributeError "Missing arguments for creation."
  | Some o =>
      truth o = Raise e
      \/ (truth o = Return false
          /\ e = Exn AttributeError "Missing arguments for creation.")
      \/ (truth o = Return true
          /\ (copy_hostname o = Raise e
              \/ ((exists h, copy_hostname o = Return h)
                  /\ int_copy_port o = Raise e)))
  end.

(** The attribute [sender] (or [receiver]) of a message that was built:
    [None] when the keyword was not given, and else the host name and the
    port, as an integer, of the object given, which was true. *)
Definition address_built
    (k : option (option address_object)) (a : option address) : Prop :=
  match k with
  | None => a = None
  | Some None => False
  | Some (Some o) =>
      truth o = Return true
      /\ exists h p,
           copy_hostname o = Return h /\ int_copy_port o = Return p
           /\ a = Some {| hostname := h; port := p |}
  end.

(** [OscMessage.__init__(path, *args, **kwargs)] *)
Definition OscMessage_init
    (p : string) (given : list given_arg) (kw : keywords) : pyresult message :=
  let _args := map init_arg given in
  if has_types (kw_types kw)
     && negb (length (default [] (kw_types kw)) =? length _args)%nat
  then Raise (Exn TypeError "Lenght of args and types must match")
  else
    Py.bind (address_keyword (kw_sender kw)) (fun s =>
    Py.bind (address_keyword (kw_receiver kw)) (fun r =>
    Return {| msg := {| path := p; args := _args |};
              types := kw_types kw; sender := s; receiver := r |})).

(** What [liblo.Message(path, *a)] is built from: the path and the
    arguments, each alone or paired with its type tag. *)
Record Message := {
  m_path : string;
  m_args : list (option ascii * arg)
}.

(** [zip(self.types, self.args)]: as long as the shorter of the two. *)
Fixpoint zip_types (ts : list ascii) (l : list arg) : list (option ascii * arg) :=
  match ts, l with
  | t :: ts', a :: l' => (Some t, a) :: zip_types ts' l'
  | _, _ => []
  end.

(** [OscMessage.to_message] *)
Definition to_message (m : message) : Message :=
  if has_types (types m)
  then {| m_path := path (msg m);
          m_args := zip_types (default [] (types m)) (args (msg m)) |}
  else {| m_path := path (msg m);
          m_args := map (fun a => (None, a)) (args (msg m)) |}.

(** [OscMessage.__add__]: [self._args.append(value)]; the message is
    changed in place and the sum itself is [None]. *)
Definition add (m : message) (v : arg) : message :=
  {| msg := {| path := path (msg m); args := args (msg m) ++ [v] |};
     types := types m; sender := sender m; receiver := receiver m |}.

End Osc.


(** ** ertza/remotes/gpio.py *)

Module Gpio.

(** The names bound at module level of gpio.py on a board, where the import
    of Adafruit_BBIO succeeds: its imports, its constants and its classes. *)
Definition module_globals : list string :=
  [ "np"; "ConfigRequest"; "RemoteError"; "ModbusRequest"; "temp_chart";
    "EventWatcher"; "GPIO"; "PWM";
    "SWITCH_PINS"; "TEMP_PINS"; "TEMP_TARGET"; "FAN_PINS"; "TEMP_TABLE";
    "RemoteServer"; "SwitchHandler"; "TempWatcher" ].

(** Reading a global name inside a method. *)
Definition global_name (name : string) : pyresult unit :=
  if existsb (String.eqb name) module_globals then Return tt
  else Raise (Exn NameError
                  (String.append "name '" (String.append name "' is not defined"))).

(** *** Adafruit_BBIO.GPIO (an external library)

    Per input pin: its level, and whether an edge was recorded since the
    flag was last read.  [add_event_detect(pin, GPIO.BOTH)] records rising
    and falling edges alike. *)
Record pin_hw := { level : bool; event : bool }.

Abbreviation GPIO := (gmap string pin_hw).

Definition pin_of (g : GPIO) (pin : string) : pin_hw :=
  default {| level := false; event := false |} (g !! pin).

(** [GPIO.input(pin)] *)
Definition input (g : GPIO) (pin : string) : bool := level (pin_of g pin).

(** [GPIO.event_detected(pin)]: reports the flag and clears it. *)
Definition event_detected (g : GPIO) (pin : string) : bool * GPIO :=
  let hw := pin_of g pin in
  (event hw, <[pin := {| level := level hw; event := false |}]> g).

(** The wired input changes level: one edge. *)
Definition toggle (g : GPIO) (pin : string) : GPIO :=
  <[pin := {| level := negb (level (pin_of g pin)); event := true |}]> g.

(** *** SwitchHandler

    [SwitchHandler(name, pin, callback, invert)].  [action] and [state] are
    read by [RemoteServer.detect_gpio_state]; [None] stands for an attribute
    that is not bound. *)
Record SwitchHandler := {
  name : nat;
  pin : string;
  callback : option string;
  invert : bool;
  action : option string;
  state : option bool
}.

(** [self.state = ...]: the attribute is bound to the value as it is;
    gpio.py hands [invert] to the base class and applies it nowhere. *)
Definition set_state (h : SwitchHandler) (raw : bool) : SwitchHandler :=
  {| name := name h; pin := pin h; callback := callback h; invert := invert h;
     action := action h; state := Some raw |}.

(** [SwitchHandler.update_state]; the result is [True] or [None], kept as its
    truth value. *)
Definition update_state (h : SwitchHandler) (g : GPIO)
  : SwitchHandler * GPIO * bool :=
  let '(detected, g') := event_detected g (pin h) in
  if detected then (set_state h (input g' (pin h)), g', true)
  else (h, g', false).

(** A trigger handed to [self.mdb_request.trigger]: the action and the state.

    Modelled from the spec: [ModbusRequest.trigger] (ertza/remotes/modbus.py
    is not part of the sources).  Section 4.4: a trigger is submitted to the
    internal-events inlet, fire and forget. *)
Definition trigger : Type := (string * bool)%type.

(** What one pass over the handlers leaves behind. *)
Record polled := Polled {
  pins_after : list SwitchHandler;
  gpio_after : GPIO;
  submitted : list trigger;
  poll_end : pyresult unit
}.

(** The loop of [detect_gpio_state]: [for p in self.switch_pins].  In
    [self.mdb_request.trigger(p.action, p.state)] the attribute
    [mdb_request] is read first, then the two arguments; [mdb_request] tells
    whether the server has that attribute. *)
Fixpoint poll_pins (mdb_request : bool) (pins : list SwitchHandler) (g : GPIO)
    (sent : list trigger) : polled :=
  match pins with
  | [] => Polled [] g sent (Return tt)
  | p :: rest =>
      let '(p', g', changed) := update_state p g in
      if changed then
        if mdb_request then
          match action p', state p' with
          | Some a, Some s =>
              let r := poll_pins mdb_request rest g' (sent ++ [(a, s)]) in
              Polled (p' :: pins_after r) (gpio_after r) (submitted r)
                     (poll_end r)
          | None, _ =>
              Polled (p' :: rest) g' sent
                     (Raise (Exn AttributeError
                                 "'SwitchHandler' object has no attribute 'action'"))
          | Some _, None =>
              Polled (p' :: rest) g' sent
                     (Raise (Exn AttributeError
                                 "'SwitchHandler' object has no attribute 'state'"))
          end
        else
          Polled (p' :: rest) g' sent
                 (Raise (Exn AttributeError
                             "'RemoteServer' object has no attribute 'mdb_request'"))
      else
        let r := poll_pins mdb_request rest g' sent in
        Polled (p' :: pins_after r) (gpio_after r) (submitted r) (poll_end r)
  end.

(** The attributes of a [RemoteServer] that [detect_gpio_state] touches.
    [create_switch_pins] stores the handlers it builds under [switchs];
    nothing in gpio.py binds [switch_pins], hence the [option].
    [mdb_request] tells whether the attribute of that name is bound:
    [__init__] binds it under the keyword [modbus] only. *)
Record RemoteServer := {
  switchs : option (list SwitchHandler);
  switch_pins : option (list SwitchHandler);
  mdb_request : bool
}.

(** [RemoteServer.detect_gpio_state] *)
Definition detect_gpio_state (self : RemoteServer) (g : GPIO) : polled :=
  match switch_pins self with
  | None =>
      Polled [] g []
             (Raise (Exn AttributeError
                         "'RemoteServer' object has no attribute 'switch_pins'"))
  | Some pins => poll_pins (mdb_request self) pins g []
  end.


(** Every handler has its [action] bound. *)
Definition has_action (h : SwitchHandler) : bool :=
  match action h with
  | Some _ => true
  | None => false
  end.



(** *** TempWatcher *)

Module TempWatcher.

(** A watcher and what it has done so far: the numeric attributes of the
    instance ([self.__dict__]; the integers 3977 and 1 are kept as the floats
    they convert to in arithmetic), the duty cycles handed to
    [self.fan.set_duty_cycle] and the errors logged, oldest first. *)
Record t := {
  sensor : string;
  fan_pin : string;
  attrs : gmap string float;
  duty_cycles : list float;
  logged : list (Z * string)
}.

(** [TempWatcher.__init__(sensor, fan, target_temp)] *)
Definition init (sensor fan : string) (target_temp : float) : t :=
  {| sensor := sensor;
     fan_pin := fan;
     attrs := <["beta" := 3977%float]>
              (<["target_temp" := target_temp]>
              (<["coeff_g" := 1%float]>
              (<["coeff_ti" := 0.1%float]>
              (<["coeff_td" := 0.1%float]> ∅))));
     duty_cycles := [];
     logged := [] |}.

(** What the sensor file does when it is opened and read at one tick. *)
Inductive sensor_file :=
| reads_number (raw : float)
| reads_text (text : string)
| read_IOError (errno : Z) (strerror : string)
| open_IOError (errno : Z) (strerror : string).

(** Methods thread the watcher and may raise. *)
Definition M (A : Type) : Type := t -> t * pyresult A.

Definition ret {A} (a : A) : M A := fun s => (s, Return a).

Definition raise {A} (e : exn) : M A := fun s => (s, Raise e).

Definition bind {A B} (c : M A) (k : A -> M B) : M B :=
  fun s =>
    match c s with
    | (s', Return a) => k a s'
    | (s', Raise e) => (s', Raise e)
    end.

Definition lift {A} (r : pyresult A) : M A := fun s => (s, r).

Notation "x <- c ;; k" := (bind c (fun x => k))
  (at level 100, c at next level, right associativity).
Notation "c ;;; k" := (bind c (fun _ => k))
  (at level 100, right associativity).

(** [self.<name>] for a numeric attribute. *)
Definition getattr (name : string) : M float :=
  fun s =>
    match attrs s !! name with
    | Some v => (s, Return v)
    | None =>
        (s, Raise (Exn AttributeError
                       (String.append "'TempWatcher' object has no attribute '"
                                      (String.append name "'"))))
    end.

(** [self.<name> = v] *)
Definition setattr (name : string) (v : float) : M unit :=
  fun s =>
    ({| sensor := sensor s; fan_pin := fan_pin s;
        attrs := <[name := v]> (attrs s);
        duty_cycles := duty_cycles s; logged := logged s |}, Return tt).

(** [self.fan.set_duty_cycle(v)] *)
Definition set_duty_cycle (v : float) : M unit :=
  fun s =>
    ({| sensor := sensor s; fan_pin := fan_pin s; attrs := attrs s;
        duty_cycles := duty_cycles s ++ [v]; logged := logged s |}, Return tt).

(** [logging.error("Unable to get ADC value ({0}): {1}".format(errno, strerror))]:
    the name [logging] is looked up among the module's globals first. *)
Definition logging_error (errno : Z) (strerror : string) : M unit :=
  lift (global_name "logging") ;;;
  fun s =>
    ({| sensor := sensor s; fan_pin := fan_pin s; attrs := attrs s;
        duty_cycles := duty_cycles s;
        logged := logged s ++ [(errno, strerror)] |}, Return tt).

(** Float division: Python raises where IEEE 754 returns an infinity. *)
Definition truediv (a b : float) : pyresult float :=
  if PrimFloat.eqb b 0%float
  then Raise (Exn ZeroDivisionError "float division by zero")
  else Return (PrimFloat.div a b).

(** [TempWatcher.voltage_to_resistance] *)
Definition voltage_to_resistance (v_sense : float) : pyresult float :=
  if PrimFloat.eqb v_sense 0%float
     || PrimFloat.ltb (PrimFloat.abs (PrimFloat.sub v_sense 1.8%float)) 0.001%float
  then Return 10000000.0%float
  else
    Py.bind (truediv 1.8%float v_sense) (fun q =>
    truediv 4700.0%float (PrimFloat.sub q 1.0%float)).

(** [TempWatcher.resistance_to_degrees] *)
Definition resistance_to_degrees (resistor_val : float) : float := resistor_val.

(** [TempWatcher.get_temperature]: [open] is outside the [try]; the [try]
    catches [IOError] only. *)
Definition get_temperature (f : sensor_file) : M float :=
  match f with
  | open_IOError errno strerror => raise (Exn IOError strerror)
  | reads_number raw =>
      let voltage := PrimFloat.mul (PrimFloat.div raw 4095.0%float) 1.8%float in
      res_val <- lift (voltage_to_resistance voltage) ;;
      ret (resistance_to_degrees res_val)
  | reads_text text =>
      raise (Exn ValueError
                 (String.append "could not convert string to float: " text))
  | read_IOError errno strerror =>
      logging_error errno strerror ;;;
      ret (-1.0)%float
  end.

(** [TempWatcher.get_error] *)
Definition get_error (f : sensor_file) : M unit :=
  error <- getattr "error" ;;
  setattr "error_last" error ;;;
  target <- getattr "target" ;;
  temperature <- get_temperature f ;;
  setattr "error" (PrimFloat.sub target temperature) ;;;
  error_sum <- getattr "error_sum" ;;
  error <- getattr "error" ;;
  setattr "error_sum" (PrimFloat.add error_sum error) ;;;
  error <- getattr "error" ;;
  error_last <- getattr "error_last" ;;
  setattr "error_delta" (PrimFloat.sub error error_last).

(** [TempWatcher.get_p] *)
Definition get_p : M float :=
  error <- getattr "error" ;;
  coeff_g <- getattr "coeff_g" ;;
  ret (PrimFloat.mul error coeff_g).

(** [TempWatcher.get_i] *)
Definition get_i : M float :=
  error_sum <- getattr "error_sum" ;;
  coeff_ti <- getattr "coeff_ti" ;;
  ret (PrimFloat.mul error_sum coeff_ti).

(** [TempWatcher.get_d] *)
Definition get_d : M float :=
  coef_td <- getattr "coef_td" ;;
  error_delta <- getattr "error_delta" ;;
  ret (PrimFloat.mul coef_td error_delta).

(** [self.<name>()] for a method without arguments that returns a number:
    the class defines [get_p], [get_i] and [get_d]; a numeric instance
    attribute of that name is not callable. *)
Definition call_method (name : string) : M float :=
  fun s =>
    match attrs s !! name with
    | Some _ => (s, Raise (Exn TypeError "'float' object is not callable"))
    | None =>
        if String.eqb name "get_p" then get_p s
        else if String.eqb name "get_i" then get_i s
        else if String.eqb name "get_d" then get_d s
        else (s, Raise (Exn AttributeError
                            (String.append "'TempWatcher' object has no attribute '"
                                           (String.append name "'"))))
    end.

(** [TempWatcher.get_pid]: [self.p() + self.i() + self.d()] *)
Definition get_pid : M float :=
  p <- call_method "p" ;;
  i <- call_method "i" ;;
  d <- call_method "d" ;;
  ret (PrimFloat.add (PrimFloat.add p i) d).

(** [TempWatcher.set_pid]: one tick of the watcher. *)
Definition set_pid (f : sensor_file) : M unit :=
  get_error f ;;;
  _cmd <- get_pid ;;
  set_duty_cycle _cmd.

(** The watcher after a run of ticks, each with what the sensor file did at
    that tick; an exception ends the tick it was raised in. *)
Fixpoint ticks (fs : list sensor_file) (s : t) : t :=
  match fs with
  | [] => s
  | f :: fs' => ticks fs' (fst (set_pid f s))
  end.

(** What reading [self.error] raises while it is unbound. *)
Definition no_attribute_error : exn :=
  Exn AttributeError "'TempWatcher' object has no attribute 'error'".

(** A method that hands the fan nothing, however it ends. *)
Definition keeps_fan {A} (c : M A) : Prop :=
  forall s, duty_cycles (fst (c s)) = duty_cycles s.

(** The attributes [get_error] assigns. *)
Definition error_attributes : list string :=
  ["error_last"; "error"; "error_sum"; "error_delta"].

End TempWatcher.

(** *** RemoteServer: construction and [run] *)

Module Server.

(** An exception on its way through [run] and [__init__]: one of the
    built-in classes, the [RemoteError] that [run] raises from a cause, or
    one raised by a collaborator, of which only what the two [except]
    clauses ask is known: whether it is a [NameError] or a [RuntimeError],
    and whether it is a [RemoteError]. *)
Inductive failure :=
| builtin (e : exn)
| RemoteError (msg : string) (cause : failure)
| foreign (name_or_runtime : bool) (remote : bool) (description : string).

(** The collaborators of gpio.py that are not part of the sources
    ([ModbusRequest], [ConfigRequest], [EventWatcher], [RemoteError]) and
    the board library: each call may raise anything.  [None] is a call that
    returns. *)
Record collaborators := {
  ModbusRequest_new : option failure;
  ConfigRequest_new : option failure;
  config_get : string -> string -> option failure;
  SwitchHandler_rest : nat -> string -> pyresult SwitchHandler;
  RemoteError_new : option failure;
  RemoteError_is_RuntimeError : bool
}.

(** [isinstance(e, (NameError, RuntimeError))]; [UnboundLocalError] derives
    from [NameError]. *)
Definition is_NameError_or_RuntimeError (c : collaborators) (f : failure)
  : bool :=
  match f with
  | builtin e =>
      match exn_cls e with
      | NameError | UnboundLocalError => true
      | _ => false
      end
  | RemoteError _ _ => RemoteError_is_RuntimeError c
  | foreign b _ _ => b
  end.

(** [isinstance(e, RemoteError)] *)
Definition is_RemoteError (f : failure) : bool :=
  match f with
  | builtin _ => false
  | RemoteError _ _ => true
  | foreign _ remote _ => remote
  end.

(** The attributes of a [RemoteServer]: [fake_mode] by its truth value,
    [restart_event] as [None] or an event with its flag, the handlers and
    the watchers ([None] while unbound), and the calls of [self.lg.info]. *)
Record t := {
  fake_mode : bool;
  restart_event : option bool;
  handlers : RemoteServer;
  temp_watchers : option (list TempWatcher.t);
  infos : list string
}.

(** What the code acts on outside the server: the pins, the triggers
    submitted so far, and what each sensor file does when read. *)
Record world := {
  gpio : GPIO;
  triggers : list trigger;
  sensor_files : string -> TempWatcher.sensor_file
}.

(** The module constants. *)
Definition SWITCH_PINS : list string := ["P8_10"; "P8_11"].
Definition TEMP_PINS : list string :=
  ["/sys/bus/iio/devices/iio:device0/in_voltage0_raw";
   "/sys/bus/iio/devices/iio:device0/in_voltage1_raw"].
Definition TEMP_TARGET : list float := [40.0%float; 40.0%float].
Definition FAN_PINS : list string := ["P8_13"; "P8_19"].

(** [SwitchHandler.__init__]: the arguments of the call to the base class,
    [pin, key_code, name, invert], are evaluated before anything is called;
    [rest] is all that follows. *)
Definition SwitchHandler_init (rest : pyresult SwitchHandler)
  : pyresult SwitchHandler :=
  Py.bind (global_name "key_code") (fun _ => rest).

(** ['switch_' + str(i)] *)
Definition switch_section (i : nat) : string :=
  String.append "switch_" (NilEmpty.string_of_uint (Nat.to_uint i)).

(** The loop of [create_switch_pins], from index [i] on, [sw] being the
    handlers built so far. *)
Fixpoint build_switches (c : collaborators) (i : nat) (pins : list string)
    (sw : list SwitchHandler) : list SwitchHandler + failure :=
  match pins with
  | [] => inl sw
  | p :: pins' =>
      match config_get c (switch_section i) "action" with
      | Some f => inr f
      | None =>
          match config_get c (switch_section i) "reverse" with
          | Some f => inr f
          | None =>
              match SwitchHandler_init (SwitchHandler_rest c i p) with
              | Raise e => inr (builtin e)
              | Return h => build_switches c (S i) pins' (sw ++ [h])
              end
          end
      end
  end.

(** [RemoteServer.create_switch_pins] *)
Definition create_switch_pins (c : collaborators) (self : t)
  : t * (bool + failure) :=
  if negb (fake_mode self) then
    match build_switches c 0 SWITCH_PINS [] with
    | inr f => (self, inr f)
    | inl sw =>
        ({| fake_mode := fake_mode self;
            restart_event := restart_event self;
            handlers := {| switchs := Some sw;
                           switch_pins := switch_pins (handlers self);
                           mdb_request := mdb_request (handlers self) |};
            temp_watchers := temp_watchers self;
            infos := infos self |}, inl true)
    end
  else (self, inl false).

(** [zip(TEMP_PINS, FAN_PINS, TEMP_TARGET)], each triple made a watcher. *)
Fixpoint build_watchers (sensors fans : list string) (targets : list float)
  : list TempWatcher.t :=
  match sensors, fans, targets with
  | s :: sensors', f :: fans', tg :: targets' =>
      TempWatcher.init s f tg :: build_watchers sensors' fans' targets'
  | _, _, _ => []
  end.

(** [RemoteServer.create_temp_watchers]: [ADC] is bound nowhere. *)
Definition create_temp_watchers (self : t) : t * (bool + failure) :=
  if negb (Nat.eqb (length TEMP_PINS) 0) && negb (fake_mode self) then
    match global_name "ADC" with
    | Raise e => (self, inr (builtin e))
    | Return _ =>
        ({| fake_mode := fake_mode self;
            restart_event := restart_event self;
            handlers := handlers self;
            temp_watchers :=
              Some (build_watchers TEMP_PINS FAN_PINS TEMP_TARGET);
            infos := infos self |}, inl true)
    end
  else (self, inl false).

(** The loop of [update_pid]: the first exception ends it. *)
Fixpoint set_pids (files : string -> TempWatcher.sensor_file)
    (tws : list TempWatcher.t) : list TempWatcher.t * pyresult unit :=
  match tws with
  | [] => ([], Return tt)
  | tw :: rest =>
      match TempWatcher.set_pid (files (TempWatcher.sensor tw)) tw with
      | (tw', Raise e) => (tw' :: rest, Raise e)
      | (tw', Return _) =>
          let '(rest', r) := set_pids files rest in (tw' :: rest', r)
      end
  end.

(** [RemoteServer.update_pid] *)
Definition update_pid (self : t) (w : world) : t * option failure :=
  match temp_watchers self with
  | None =>
      (self,
       Some (builtin (Exn AttributeError
                          "'RemoteServer' object has no attribute 'temp_watchers'")))
  | Some tws =>
      let '(tws', r) := set_pids (sensor_files w) tws in
      ({| fake_mode := fake_mode self;
          restart_event := restart_event self;
          handlers := handlers self;
          temp_watchers := Some tws';
          infos := infos self |},
       match r with
       | Return _ => None
       | Raise e => Some (builtin e)
       end)
  end.

(** [self.detect_gpio_state()] as [run] calls it: the handlers, the pins
    and the triggers afterwards. *)
Definition poll (self : t) (w : world) : t * world * option failure :=
  let r := detect_gpio_state (handlers self) (gpio w) in
  ({| fake_mode := fake_mode self;
      restart_event := restart_event self;
      handlers :=
        {| switchs := switchs (handlers self);
           switch_pins :=
             match switch_pins (handlers self) with
             | Some _ => Some (pins_after r)
             | None => None
             end;
           mdb_request := mdb_request (handlers self) |};
      temp_watchers := temp_watchers self;
      infos := infos self |},
   {| gpio := gpio_after r;
      triggers := triggers w ++ submitted r;
      sensor_files := sensor_files w |},
   match poll_end r with
   | Return _ => None
   | Raise e => Some (builtin e)
   end).

(** [self.restart_event and self.restart_event.is_set()] *)
Definition restart_requested (self : t) : bool :=
  match restart_event self with
  | Some flag => flag
  | None => false
  end.

(** [if self.restart_event: self.restart_event.clear()] *)
Definition clear_restart_event (self : t) : t :=
  {| fake_mode := fake_mode self;
     restart_event :=
       match restart_event self with
       | Some _ => Some false
       | None => None
       end;
     handlers := handlers self;
     temp_watchers := temp_watchers self;
     infos := infos self |}.

(** [self.lg.info('Updating remote server…')] *)
Definition lg_info (self : t) : t :=
  {| fake_mode := fake_mode self;
     restart_event := restart_event self;
     handlers := handlers self;
     temp_watchers := temp_watchers self;
     infos := infos self ++ ["Updating remote server…"] |}.

(** The body of the [try] of [run]. *)
Definition configure (c : collaborators) (self : t) : t * option failure :=
  match create_switch_pins c self with
  | (self1, inr f) => (self1, Some f)
  | (self1, inl _) =>
      match create_temp_watchers self1 with
      | (self2, inr f) => (self2, Some f)
      | (self2, inl _) => (clear_restart_event self2, None)
      end
  end.

(** [except (NameError, RuntimeError) as e: raise RemoteError(...) from e] *)
Definition except_configure (c : collaborators) (r : t * option failure)
  : t * option failure :=
  match r with
  | (self, Some f) =>
      if is_NameError_or_RuntimeError c f then
        match RemoteError_new c with
        | Some f' => (self, Some f')
        | None =>
            (self,
             Some (RemoteError "Error configuring pins, am I on a beaglebone ?"
                               f))
        end
      else (self, Some f)
  | (self, None) => (self, None)
  end.

(** [RemoteServer.run(interval=None, init=False)] *)
Definition run (c : collaborators) (init : bool) (self : t) (w : world)
  : t * world * option failure :=
  let '(self1, r) :=
    if restart_requested self || init then
      except_configure c
        (configure c (if negb init then lg_info self else self))
    else (self, None) in
  match r with
  | Some f => (self1, w, Some f)
  | None =>
      if negb (fake_mode self1) then
        match update_pid self1 w with
        | (self2, Some f) => (self2, w, Some f)
        | (self2, None) => poll self2 w
        end
      else (self1, w, None)
  end.

(** The keywords of [RemoteServer.__init__] that it acts on. *)
Record keywords := {
  kw_fake_mode : option bool;
  kw_modbus : bool;
  kw_restart_event : option bool
}.

(** [RemoteServer.__init__(config, **kwargs)]: the server and the world
    when it returns, the exception when it does not.  [mdb_request] is
    bound when the keyword [modbus] is given. *)
Definition init (c : collaborators) (kw : keywords) (w : world)
  : t * world + failure :=
  let self :=
    {| fake_mode := default false (kw_fake_mode kw);
       restart_event := kw_restart_event kw;
       handlers := {| switchs := None; switch_pins := None;
                      mdb_request := kw_modbus kw |};
       temp_watchers := None;
       infos := [] |} in
  match (if kw_modbus kw then ModbusRequest_new c else None) with
  | Some f => inr f
  | None =>
      match ConfigRequest_new c with
      | Some f => inr f
      | None =>
          match run c true self w with
          | (self1, w1, None) => inl (self1, w1)
          | (self1, w1, Some f) =>
              if is_RemoteError f then
                let self2 :=
                  {| fake_mode := true;
                     restart_event := restart_event self1;
                     handlers := handlers self1;
                     temp_watchers := temp_watchers self1;
                     infos := infos self1 |} in
                match run c true self2 w1 with
                | (self3, w3, None) => inl (self3, w3)
                | (_, _, Some f') => inr f'
                end
              else inr f
          end
      end
  end.

(** Later calls of [run()], one after the other; before each, another
    thread may have set the restart event ([true] in [sets]).  The first
    exception ends the calls. *)
Fixpoint runs (c : collaborators) (sets : list bool) (self : t) (w : world)
  : t * world * option failure :=
  match sets with
  | [] => (self, w, None)
  | set :: sets' =>
      let self0 :=
        {| fake_mode := fake_mode self;
           restart_event :=
             match restart_event self with
             | Some flag => Some (flag || set)
             | None => None
             end;
           handlers := handlers self;
           temp_watchers := temp_watchers self;
           infos := infos self |} in
      match run c false self0 w with
      | (self1, w1, None) => runs c sets' self1 w1
      | r => r
      end
  end.

(** Collaborators that raise nothing, for examples. *)
Definition quiet_collaborators : collaborators :=
  {| ModbusRequest_new := None;
     ConfigRequest_new := None;
     config_get := fun _ _ => None;
     SwitchHandler_rest := fun i p =>
       Return {| name := i; pin := p; callback := None; invert := false;
                 action := None; state := None |};
     RemoteError_new := None;
     RemoteError_is_RuntimeError := false |}.

(** A server in fake mode that has bound no handler and no watcher. *)
Definition fake_server (modbus : bool) (event : option bool) : t :=
  {| fake_mode := true;
     restart_event := event;
     handlers := {| switchs := None; switch_pins := None;
                    mdb_request := modbus |};
     temp_watchers := None;
     infos := [] |}.

End Server.

End Gpio.

(** * Properties *)

(** ** Machine commands *)

Section MachineCommandsFacts.

Import MachineCommands.

(** *** Canonical keys *)

Lemma canonical_key_cons (c : ascii) (k : string) :
  canonical_key (String c k) =
  String (if Ascii.eqb c "." then ":"%char else c) (canonical_key k).
Proof. reflexivity. Qed.

Lemma canonical_char_idempotent (c : ascii) :
  let c' := if Ascii.eqb c "." then ":"%char else c in
  (if Ascii.eqb c' "." then ":"%char else c') = c'.
Proof.
  cbv zeta. destruct (Ascii.eqb c ".") eqn:E.
  - reflexivity.
  - rewrite E. reflexivity.
Qed.

Lemma canonical_key_idempotent (k : string) :
  canonical_key (canonical_key k) = canonical_key k.
Proof.
  induction k as [|c k IH].
  - reflexivity.
  - rewrite !canonical_key_cons, IH.
    f_equal. apply canonical_char_idempotent.
Qed.

Lemma canonical_char_delimiter (c d : ascii) :
  Ascii.eqb c d || (is_delimiter c && is_delimiter d) = true ->
  (if Ascii.eqb c "." then ":"%char else c) =
  (if Ascii.eqb d "." then ":"%char else d).
Proof.
  unfold is_delimiter. intros H.
  destruct (Ascii.eqb_spec c d) as [->|Hne]; [reflexivity|].
  cbn in H. apply andb_prop in H as [Hc Hd].
  destruct (Ascii.eqb_spec c "."), (Ascii.eqb_spec d "."); subst;
    try reflexivity; try congruence.
  - cbn in Hd. destruct (Ascii.eqb_spec d ":"); congruence.
  - cbn in Hc. destruct (Ascii.eqb_spec c ":"); congruence.
  - cbn in Hc, Hd.
    destruct (Ascii.eqb_spec c ":"), (Ascii.eqb_spec d ":"); congruence.
Qed.

Lemma canonical_key_delimiters (k1 : string) :
  forall k2, same_up_to_delimiters k1 k2 = true ->
             canonical_key k1 = canonical_key k2.
Proof.
  induction k1 as [|c k1 IH]; intros [|d k2] H; cbn in H; try discriminate.
  - reflexivity.
  - apply andb_prop in H as [Hcd Hrest].
    rewrite !canonical_key_cons, (IH k2 Hrest).
    f_equal. now apply canonical_char_delimiter.
Qed.

Lemma canonical_key_length (k : string) :
  String.length (canonical_key k) = String.length k.
Proof.
  induction k as [|c k IH]; [reflexivity|].
  rewrite canonical_key_cons. cbn. now rewrite IH.
Qed.

Lemma canonical_key_no_dot (k : string) :
  Str.lacks_char "." (canonical_key k) = true.
Proof.
  induction k as [|c k IH]; [reflexivity|].
  rewrite canonical_key_cons. cbn [Str.lacks_char]. rewrite IH, andb_true_r.
  destruct (Ascii.eqb_spec c ".") as [->|Hne]; [reflexivity|].
  destruct (Ascii.eqb_spec c "."); [congruence | reflexivity].
Qed.

(** C5 (as the code has it): replacing every dot by a colon is idempotent
    and blind to the delimiter used: two keys that differ only in dot versus
    colon have the same canonical key.  It is a total function that drops
    nothing: the canonical key is as long as the raw key and holds no dot. *)
Theorem canonical_key_idempotent_delimiter_blind (k1 k2 : string) :
  same_up_to_delimiters k1 k2 = true ->
  canonical_key (canonical_key k1) = canonical_key k1
  /\ canonical_key k1 = canonical_key k2
  /\ String.length (canonical_key k1) = String.length k1
  /\ Str.lacks_char "." (canonical_key k1) = true.
Proof.
  intros H. repeat split.
  - apply canonical_key_idempotent.
  - now apply canonical_key_delimiters.
  - apply canonical_key_length.
  - apply canonical_key_no_dot.
Qed.

Lemma canonical_key_a_dot_b :
  same_up_to_delimiters "a.b" "a:b" = true
  /\ canonical_key (canonical_key "a.b") = canonical_key "a.b"
  /\ canonical_key "a.b" = canonical_key "a:b"
  /\ String.length (canonical_key "a.b") = String.length "a.b"
  /\ Str.lacks_char "." (canonical_key "a.b") = true.
Proof.
  split; [reflexivity|].
  apply (canonical_key_idempotent_delimiter_blind "a.b" "a:b"). reflexivity.
Defined.

(** C5 (as stated) fails: the empty key and a key of delimiters only are
    canonicalized without any error, [machine.set] on the empty key is
    answered with an ok reply, and a canonical key can hold empty segments. *)
Lemma canonical_key_accepts_empty_and_delimiters :
  canonical_key "" = ""
  /\ canonical_key ".." = "::"
  /\ MachineSet.execute (∅ : gmap string string) [""; "v"]
     = Outcome (<["" := "v"]> ∅) [ok "machine.set" [""; "v"]] None
  /\ Str.split ":" (canonical_key "a..b") = ["a"; ""; "b"].
Proof. repeat split; reflexivity. Qed.

(** *** Wrong argument counts *)

Section AnyMachine.

Context {M : Type} `{Machine M}.

(** [machine.set] with no argument or with one is answered with one error
    reply that names the alias. *)
Lemma MachineSet_too_few_arguments (m : M) :
  MachineSet.execute m []
  = Outcome m [error "machine.set" ["Invalid number of arguments for machine.set"]]
            None
  /\ forall k,
       MachineSet.execute m [k]
       = Outcome m
           [error "machine.set" ["Invalid number of arguments for machine.set"]]
           None.
Proof. split; reflexivity. Qed.

(** [machine.get] with no argument or with two or more is answered with one
    error reply that names the alias. *)
Lemma MachineGet_wrong_arity (m : M) :
  MachineGet.execute m []
  = Outcome m [error "machine.get" ["Invalid number of arguments for machine.get"]]
            None
  /\ forall k x rest,
       MachineGet.execute m (k :: x :: rest)
       = Outcome m
           [error "machine.get" ["Invalid number of arguments for machine.get"]]
           None.
Proof. split; reflexivity. Qed.

(** [machine.get] answers every call with exactly one reply and lets no
    exception out. *)
Lemma MachineGet_one_reply (m : M) (args : list string) :
  length (outlet (MachineGet.execute m args)) = 1%nat
  /\ escaped (MachineGet.execute m args) = None.
Proof.
  destruct args as [|k [|x rest]]; cbn.
  - split; reflexivity.
  - unfold MachineGet.execute, MachineGet.try_body, except_Exception. cbn.
    destruct (getitem m (canonical_key k)); cbn; split; reflexivity.
  - split; reflexivity.
Qed.

(** An exception raised by the machine while [k] is bound is answered with
    one error reply that carries [k] and the exception's text. *)
Lemma MachineSet_machine_error_replied (m : M) (k v : string) (e : exn) :
  setitem m (canonical_key k) v = Raise e ->
  MachineSet.execute m [k; v]
  = Outcome m [error "machine.set" [k; str e]] None.
Proof.
  intros He. unfold MachineSet.execute, MachineSet.try_body, except_Exception.
  cbn. rewrite He. reflexivity.
Qed.

Lemma MachineGet_machine_error_replied (m : M) (k : string) (e : exn) :
  getitem m (canonical_key k) = Raise e ->
  MachineGet.execute m [k]
  = Outcome m [error "machine.get" [k; str e]] None.
Proof.
  intros He. unfold MachineGet.execute, MachineGet.try_body, except_Exception.
  cbn. rewrite He. reflexivity.
Qed.

(** C2, where the code departs from it: [machine.set] with three or more
    arguments passes the [len(c.args) < 2] test, the unpacking raises, and
    the handler of that exception reads the unbound [k]: no reply is sent
    and [UnboundLocalError] leaves [execute]. *)
Theorem MachineSet_surplus_arguments_escape
    (m : M) (k v x : string) (rest : list string) :
  MachineSet.execute m (k :: v :: x :: rest)
  = Outcome m []
      (Some (Exn UnboundLocalError
                 "local variable 'k' referenced before assignment")).
Proof. reflexivity. Qed.

(** C3, where the code departs from it: the [try] block of [machine.set]
    raises [ValueError] on three or more arguments, an error internal to the
    handler, and the command gets no reply at all while an exception leaves
    the handler. *)
Theorem MachineSet_unpack_error_leaves_no_reply
    (m : M) (k v x : string) (rest : list string) :
  let args := k :: v :: x :: rest in
  att_end (MachineSet.try_body m args)
  = Raise (Exn ValueError "too many values to unpack (expected 2)")
  /\ outlet (MachineSet.execute m args) = []
  /\ escaped (MachineSet.execute m args) <> None.
Proof. cbv zeta. repeat split. discriminate. Qed.

(** C1: on a machine that accepts every write and reads back what was
    written under a key, [machine.set] with a key and a value, then
    [machine.get] with the same key: both are answered with one ok reply,
    and the second echoes the key and the value that was set.  Both handlers
    subscript the machine with the same canonical key. *)
Theorem set_then_get_reads_back (m : M) (k v : string) :
  (forall m0 nk x,
      exists m1, setitem m0 nk x = Return m1 /\ getitem m1 nk = Return x) ->
  let after_set := MachineSet.execute m [k; v] in
  let after_get := MachineGet.execute (machine after_set) [k] in
  outlet after_set = [ok "machine.set" [k; v]]
  /\ escaped after_set = None
  /\ outlet after_get = [ok "machine.get" [k; v]]
  /\ escaped after_get = None.
Proof.
  intros Hstore. cbv zeta.
  destruct (Hstore m (canonical_key k) v) as (m1 & Hset & Hget).
  unfold MachineSet.execute, MachineSet.try_body, except_Exception.
  cbn. rewrite Hset. cbn.
  unfold MachineGet.execute, MachineGet.try_body, except_Exception.
  cbn. rewrite Hget. cbn. repeat split.
Qed.

End AnyMachine.

Lemma set_then_get_drive_velocity :
  let after_set :=
    MachineSet.execute (∅ : gmap string string) ["drive.velocity"; "12.5"] in
  let after_get := MachineGet.execute (machine after_set) ["drive.velocity"] in
  outlet after_set = [ok "machine.set" ["drive.velocity"; "12.5"]]
  /\ escaped after_set = None
  /\ outlet after_get = [ok "machine.get" ["drive.velocity"; "12.5"]]
  /\ escaped after_get = None.
Proof.
  cbv zeta.
  apply (set_then_get_reads_back
           (∅ : gmap string string) "drive.velocity" "12.5").
  intros m0 nk x. exists (<[nk := x]> m0). split.
  - reflexivity.
  - cbn. now rewrite lookup_insert_eq.
Defined.

(** *** The machine store *)

Lemma MachineSet_stores (m : gmap string string) (k v : string) :
  MachineSet.execute m [k; v]
  = Outcome (<[canonical_key k := v]> m) [ok "machine.set" [k; v]] None.
Proof. reflexivity. Qed.

Lemma MachineGet_present (m : gmap string string) (k v : string) :
  m !! canonical_key k = Some v ->
  MachineGet.execute m [k] = Outcome m [ok "machine.get" [k; v]] None.
Proof.
  intros Hv. unfold MachineGet.execute, MachineGet.try_body, except_Exception.
  cbn. rewrite Hv. reflexivity.
Qed.

Lemma MachineGet_absent (m : gmap string string) (k : string) :
  m !! canonical_key k = None ->
  MachineGet.execute m [k]
  = Outcome m
      [error "machine.get" [k; str (UnknownKeyError (canonical_key k))]] None.
Proof.
  intros Hv. unfold MachineGet.execute, MachineGet.try_body, except_Exception.
  cbn. rewrite Hv. reflexivity.
Qed.

(** The value is read back through either spelling of the key. *)
Lemma set_then_get_other_delimiter (m : gmap string string) (k k' v : string) :
  same_up_to_delimiters k k' = true ->
  MachineGet.execute (machine (MachineSet.execute m [k; v])) [k']
  = Outcome (<[canonical_key k := v]> m) [ok "machine.get" [k'; v]] None.
Proof.
  intros Hkk'. rewrite MachineSet_stores. cbn [machine].
  apply MachineGet_present.
  rewrite <- (canonical_key_delimiters k k' Hkk'). apply lookup_insert_eq.
Qed.

Lemma set_dot_get_colon :
  same_up_to_delimiters "drive.velocity" "drive:velocity" = true
  /\ MachineGet.execute
       (machine (MachineSet.execute ∅ ["drive.velocity"; "12.5"]))
       ["drive:velocity"]
     = Outcome (<[canonical_key "drive.velocity" := "12.5"]> ∅)
               [ok "machine.get" ["drive:velocity"; "12.5"]] None.
Proof.
  split; [reflexivity|].
  apply (set_then_get_other_delimiter ∅ "drive.velocity" "drive:velocity").
  reflexivity.
Defined.

(** A call that does not write a path leaves it absent. *)
Lemma run_call_keeps_absent (m : gmap string string) (c : call) (nk : string) :
  m !! nk = None ->
  sets_path nk c = false ->
  machine (run_call m c) !! nk = None.
Proof.
  intros Hm Hc. destruct c as [args|args]; cbn [run_call].
  - destruct args as [|k [|v [|x rest]]]; try exact Hm.
    rewrite MachineSet_stores. cbn [machine].
    cbn in Hc. apply String.eqb_neq in Hc.
    rewrite lookup_insert_ne; [exact Hm | exact Hc].
  - destruct args as [|k [|x rest]]; try exact Hm.
    unfold MachineGet.execute, MachineGet.try_body, except_Exception. cbn.
    destruct (m !! canonical_key k); exact Hm.
Qed.

Lemma run_calls_keep_absent (cs : list call) :
  forall (m : gmap string string) (nk : string),
    m !! nk = None ->
    forallb (fun c => negb (sets_path nk c)) cs = true ->
    run_calls m cs !! nk = None.
Proof.
  induction cs as [|c cs IH]; intros m nk Hm Hcs; cbn in *.
  - exact Hm.
  - apply andb_prop in Hcs as [Hc Hcs].
    apply IH; [|exact Hcs].
    apply run_call_keeps_absent; [exact Hm|].
    now apply negb_true_iff.
Qed.

(** C4: after any run of calls in which no [machine.set] wrote the path of
    [k], on a machine where that path was absent to begin with,
    [machine.get] of [k] is answered with exactly one error reply, the one
    for UnknownKeyError, and no exception leaves the handler. *)
Theorem get_of_unset_key_is_error_reply
    (m : gmap string string) (cs : list call) (k : string) :
  m !! canonical_key k = None ->
  forallb (fun c => negb (sets_path (canonical_key k) c)) cs = true ->
  MachineGet.execute (run_calls m cs) [k]
  = Outcome (run_calls m cs)
      [error "machine.get" [k; str (UnknownKeyError (canonical_key k))]] None.
Proof.
  intros Hm Hcs. apply MachineGet_absent.
  now apply run_calls_keep_absent.
Qed.

Lemma get_of_unset_key_after_other_sets :
  let m : gmap string string := ∅ in
  let cs := [machine_set ["drive.velocity"; "12.5"];
             machine_get ["drive.velocity"];
             machine_set ["drive.unset_key"]] in
  MachineGet.execute (run_calls m cs) ["drive.unset_key"]
  = Outcome (run_calls m cs)
      [error "machine.get"
         ["drive.unset_key";
          str (UnknownKeyError (canonical_key "drive.unset_key"))]] None.
Proof.
  cbv zeta.
  apply (get_of_unset_key_is_error_reply ∅ _ "drive.unset_key");
    reflexivity.
Defined.

End MachineCommandsFacts.

(** ** Removing a marker from a path *)

Section StrFacts.


Lemma append_nil_l (t : string) : String.append "" t = t.
Proof. reflexivity. Qed.

Lemma append_cons (c : ascii) (s t : string) :
  String.append (String c s) t = String c (String.append s t).
Proof. reflexivity. Qed.







End StrFacts.

(** ** OSC correlation ids *)

Section OscFacts.

Import Osc.







(** C10: on a message that is not ping-style, [uid] raises [IndexError]
    when there is no argument, so it returns a value only when there is at
    least one. *)
Theorem uid_without_argument_raises (m : OscMessage) :
  is_ping m = false ->
  (args m = [] -> uid m = Raise (Exn IndexError "tuple index out of range"))
  /\ (forall u, uid m = Return u -> args m <> []).
Proof.
  unfold is_ping, uid. intros Hping. rewrite Hping. split.
  - intros ->. reflexivity.
  - intros u Hu Hargs. rewrite Hargs in Hu. discriminate.
Qed.

Lemma uid_of_bare_machine_set :
  let m := {| path := "/machine/set"; args := [] |} in
  is_ping m = false
  /\ (args m = [] -> uid m = Raise (Exn IndexError "tuple index out of range"))
  /\ (forall u, uid m = Return u -> args m <> []).
Proof.
  cbv zeta. split; [reflexivity|].
  apply (uid_without_argument_raises {| path := "/machine/set"; args := [] |}).
  reflexivity.
Defined.

End OscFacts.

(** ** The switch watcher *)

Section SwitchFacts.

Import Gpio.

Lemma pin_of_event_detected_other (g : GPIO) (p q : string) :
  p <> q -> pin_of (snd (event_detected g p)) q = pin_of g q.
Proof.
  intros Hpq. unfold event_detected, pin_of. cbn [snd].
  now rewrite lookup_insert_ne.
Qed.

Lemma input_after_event_detected (g : GPIO) (p : string) :
  input (snd (event_detected g p)) p = level (pin_of g p).
Proof.
  unfold input, event_detected. cbn [snd].
  unfold pin_of at 1. now rewrite lookup_insert_eq.
Qed.

(** [update_state] reports a change exactly when the pin recorded an edge. *)
Lemma update_state_spec (h : SwitchHandler) (g : GPIO) :
  update_state h g
  = (if event (pin_of g (pin h))
     then set_state h (level (pin_of g (pin h)))
     else h,
     snd (event_detected g (pin h)),
     event (pin_of g (pin h))).
Proof.
  unfold update_state.
  rewrite (surjective_pairing (event_detected g (pin h))).
  rewrite input_after_event_detected.
  unfold event_detected at 1. cbn [fst].
  destruct (event (pin_of g (pin h))); reflexivity.
Qed.








End SwitchFacts.

(** ** The thermal watcher *)

Section TempWatcherFacts.

Import Gpio.
Import Gpio.TempWatcher.

(** [__init__] binds neither [error] nor [target] nor [error_sum]. *)
Lemma init_binds_no_error (sensor fan : string) (target_temp : float) :
  attrs (init sensor fan target_temp) !! "error" = None
  /\ attrs (init sensor fan target_temp) !! "target" = None
  /\ attrs (init sensor fan target_temp) !! "error_sum" = None.
Proof. repeat split; reflexivity. Qed.

(** While [error] is unbound a tick stops at the first statement of
    [get_error], whatever the sensor file would have done. *)
Lemma set_pid_without_error (f : sensor_file) (s : t) :
  attrs s !! "error" = None ->
  set_pid f s = (s, Raise no_attribute_error).
Proof.
  intros He. unfold set_pid, get_error, bind, getattr. rewrite He. reflexivity.
Qed.

Lemma ticks_without_error (fs : list sensor_file) :
  forall s, attrs s !! "error" = None -> ticks fs s = s.
Proof.
  induction fs as [|f fs IH]; intros s He; cbn [ticks].
  - reflexivity.
  - rewrite (set_pid_without_error f s He). cbn [fst]. now apply IH.
Qed.

(** [self.p()]: the class has no method [p]. *)
Lemma get_pid_has_no_p (s : t) :
  attrs s !! "p" = None ->
  get_pid s
  = (s, Raise (Exn AttributeError "'TempWatcher' object has no attribute 'p'")).
Proof.
  intros Hp. unfold get_pid, bind, call_method. rewrite Hp. reflexivity.
Qed.

(** C6, where the code departs from it: on a watcher as [__init__] builds
    it, every tick, the first and each one after it, whatever the sensor
    file yields, ends in [AttributeError] at [self.error]: no state is
    updated and no duty cycle reaches the fan. *)
Theorem set_pid_never_applies_duty_cycle
    (sensor fan : string) (target_temp : float)
    (earlier : list sensor_file) (f : sensor_file) :
  let s := ticks earlier (init sensor fan target_temp) in
  set_pid f s = (s, Raise no_attribute_error)
  /\ attrs s = attrs (init sensor fan target_temp)
  /\ duty_cycles s = [].
Proof.
  cbv zeta.
  rewrite (ticks_without_error earlier (init sensor fan target_temp) eq_refl).
  repeat split.
Qed.

(** The [except IOError] clause of [get_temperature] reads the name
    [logging], which gpio.py never imports: nothing is logged and
    [NameError] is raised instead of the value -1.0 being returned. *)
Lemma get_temperature_read_failure (errno : Z) (strerror : string) (s : t) :
  get_temperature (read_IOError errno strerror) s
  = (s, Raise (Exn NameError "name 'logging' is not defined")).
Proof. reflexivity. Qed.

(** C7, where the code departs from it: on a tick at which reading the
    sensor file fails, nothing is logged and the tick is not skipped: an
    exception leaves [set_pid], and one leaves [get_temperature] too. *)
Theorem set_pid_read_failure_not_logged
    (sensor fan : string) (target_temp : float)
    (errno : Z) (strerror : string) :
  let s := init sensor fan target_temp in
  let f := read_IOError errno strerror in
  set_pid f s = (s, Raise no_attribute_error)
  /\ logged (fst (set_pid f s)) = []
  /\ get_temperature f s
     = (s, Raise (Exn NameError "name 'logging' is not defined"))
  /\ logged (fst (get_temperature f s)) = [].
Proof.
  cbv zeta.
  rewrite (set_pid_without_error _ (init sensor fan target_temp) eq_refl).
  repeat split.
Qed.

End TempWatcherFacts.

(** ** OSC paths and messages *)

Section OscMessageFacts.

Import Osc.

Lemma split_not_nil (sep : ascii) (s : string) : Str.split sep s <> [].
Proof.
  destruct s as [|c s]; cbn [Str.split]; [discriminate|].
  destruct (Ascii.eqb c sep); [discriminate|].
  destruct (Str.split sep s); discriminate.
Qed.

Lemma join_cons_cons (sep s t : string) (rest : list string) :
  Str.join sep (s :: t :: rest)
  = String.append s (String.append sep (Str.join sep (t :: rest))).
Proof. reflexivity. Qed.

Lemma join_head_cons (sep : string) (c : ascii) (seg : string)
    (segs : list string) :
  Str.join sep (String c seg :: segs) = String c (Str.join sep (seg :: segs)).
Proof.
  destruct segs as [|t rest]; [reflexivity|].
  now rewrite !join_cons_cons, append_cons.
Qed.

(** Joining what was split gives the text back. *)
Lemma join_split (sep : ascii) (s : string) :
  Str.join (String sep "") (Str.split sep s) = s.
Proof.
  induction s as [|c s IH]; [reflexivity|].
  cbn [Str.split]. destruct (Ascii.eqb_spec c sep) as [->|Hne].
  - pose proof (split_not_nil sep s) as Hnil.
    destruct (Str.split sep s) as [|t rest]; [congruence|].
    rewrite join_cons_cons, IH, append_nil_l, append_cons, append_nil_l.
    reflexivity.
  - pose proof (split_not_nil sep s) as Hnil.
    destruct (Str.split sep s) as [|seg segs]; [congruence|].
    now rewrite join_head_cons, IH.
Qed.

(** No segment holds the separator. *)
Lemma split_lacks (sep : ascii) (s : string) :
  Forall (fun seg => Str.lacks_char sep seg = true) (Str.split sep s).
Proof.
  induction s as [|c s IH]; cbn [Str.split].
  - repeat constructor.
  - destruct (Ascii.eqb_spec c sep) as [->|Hne].
    + constructor; [reflexivity | exact IH].
    + pose proof (split_not_nil sep s) as Hnil.
      destruct (Str.split sep s) as [|seg segs]; [congruence|].
      inversion IH as [|? ? Hseg Hsegs]; subst.
      constructor; [|exact Hsegs].
      cbn [Str.lacks_char]. rewrite Hseg, andb_true_r.
      destruct (Ascii.eqb_spec c sep); [congruence | reflexivity].
Qed.

Lemma append_assoc (s t u : string) :
  String.append (String.append s t) u = String.append s (String.append t u).
Proof.
  induction s as [|c s IH]; [reflexivity|].
  now rewrite !append_cons, IH.
Qed.

Lemma join_snoc (sep : string) (l : list string) (a : string) :
  l <> [] ->
  Str.join sep (l ++ [a])
  = String.append (Str.join sep l) (String.append sep a).
Proof.
  induction l as [|s l IH]; [congruence|]. intros _.
  destruct l as [|t rest].
  - reflexivity.
  - change ((s :: t :: rest) ++ [a]) with (s :: (t :: rest) ++ [a]).
    change ((t :: rest) ++ [a]) with (t :: rest ++ [a]) at 1.
    rewrite join_cons_cons.
    change (t :: rest ++ [a]) with ((t :: rest) ++ [a]).
    rewrite IH by discriminate.
    rewrite join_cons_cons.
    now rewrite !append_assoc.
Qed.

Lemma last_snoc {A} (l : list A) (a d : A) : List.last (l ++ [a]) d = a.
Proof.
  induction l as [|x l IH]; [reflexivity|].
  cbn [app List.last]. destruct (l ++ [a]) eqn:E.
  - destruct l; discriminate.
  - exact IH.
Qed.

(** The text of an [OscPath] is the path it was built from: splitting at
    the slashes and joining again loses nothing, so [target] is the path. *)
Theorem OscPath_repr_is_path (m : OscMessage) :
  OscPath_repr (path m) = path m /\ target m = path m.
Proof.
  unfold target, OscPath_repr, levels. now rewrite join_split.
Qed.

(** [action] never raises: it is the text after the last slash of the path
    (the whole path when there is no slash), and holds no slash itself. *)
Theorem action_is_last_level (m : OscMessage) :
  exists a,
    action m = Return a
    /\ Str.lacks_char "/" a = true
    /\ (path m = a
        \/ exists before,
             path m = String.append before (String.append "/" a)).
Proof.
  unfold action, levels.
  pose proof (join_split "/" (path m)) as Hjoin.
  pose proof (split_lacks "/" (path m)) as Hlacks.
  pose proof (split_not_nil "/" (path m)) as Hnil.
  destruct (Str.split "/" (path m)) as [|l ls] eqn:E; [congruence|].
  destruct (exists_last Hnil) as (init & a & Hla).
  rewrite Hla, last_snoc. exists a. split; [reflexivity|]. split.
  - rewrite Hla in Hlacks. apply Forall_app in Hlacks as [_ Ha].
    now inversion Ha.
  - rewrite Hla in Hjoin. destruct init as [|s init].
    + left. now rewrite <- Hjoin.
    + right. exists (Str.join "/" (s :: init)).
      rewrite <- Hjoin. now apply join_snoc.
Qed.

Lemma zip_types_snd (ts : list ascii) :
  forall l, length ts = length l -> map snd (zip_types ts l) = l.
Proof.
  induction ts as [|t ts IH]; intros [|a l] Hlen; try discriminate.
  - reflexivity.
  - cbn. f_equal. apply IH. now injection Hlen.
Qed.

Lemma zip_types_snoc (ts : list ascii) :
  forall l v, (length ts <= length l)%nat ->
              zip_types ts (l ++ [v]) = zip_types ts l.
Proof.
  induction ts as [|t ts IH]; intros [|a l] v Hlen; cbn in *;
    try reflexivity; try lia.
  f_equal. apply IH. lia.
Qed.

(** What the constructor guarantees of a message it returns. *)
Lemma OscMessage_init_returns
    (p : string) (given : list given_arg) (kw : keywords) (m : message) :
  OscMessage_init p given kw = Return m ->
  msg m = {| path := p; args := map init_arg given |}
  /\ types m = kw_types kw
  /\ (has_types (types m) = true ->
      length (default [] (types m)) = length (args (msg m))).
Proof.
  unfold OscMessage_init. intros H.
  destruct (has_types (kw_types kw)) eqn:Ht; cbn [andb] in H.
  - destruct (Nat.eqb_spec (length (default [] (kw_types kw)))
                           (length (map init_arg given))) as [Hlen|Hlen];
      cbn [negb] in H; [|discriminate].
    destruct (address_keyword (kw_sender kw)); [|discriminate].
    destruct (address_keyword (kw_receiver kw)); [|discriminate].
    cbn in H. injection H as <-. cbn. repeat split. intros _. exact Hlen.
  - destruct (address_keyword (kw_sender kw)); [|discriminate].
    destruct (address_keyword (kw_receiver kw)); [|discriminate].
    cbn in H. injection H as <-. cbn. repeat split.
    rewrite Ht. discriminate.
Qed.

Lemma OscAddress_init_raises (o : option address_object) (e : exn) :
  OscAddress_init o None None = Raise e -> address_refused o e.
Proof.
  unfold OscAddress_init, address_refused. destruct o as [o|]; cbn.
  - destruct (truth o) as [[]|e0]; cbn.
    + destruct (copy_hostname o) as [h|e1]; cbn.
      * destruct (int_copy_port o) as [q|e2]; cbn; [discriminate|].
        intros [= <-]. right. right. split; [reflexivity|]. right.
        split; [now exists h | reflexivity].
      * intros [= <-]. right. right. split; [reflexivity|]. now left.
    + intros [= <-]. right. left. now split.
    + intros [= <-]. now left.
  - now intros [= <-].
Qed.

Lemma address_keyword_returns
    (k : option (option address_object)) (a : option address) :
  address_keyword k = Return a -> address_built k a.
Proof.
  unfold address_keyword, address_built, OscAddress_init.
  destruct k as [[o|]|]; cbn.
  - destruct (truth o) as [[]|e0]; cbn; try discriminate.
    destruct (copy_hostname o) as [h|e1]; cbn; [|discriminate].
    destruct (int_copy_port o) as [q|e2]; cbn; [|discriminate].
    intros [= <-]. split; [reflexivity|]. now exists h, q.
  - discriminate.
  - now intros [= <-].
Qed.

(** The constructor checks [types] first: [TypeError] when [types] is not
    empty and its length differs from the number of arguments.  Otherwise
    it raises only what [OscAddress] raises for the sender or the receiver
    given: [AttributeError] for [None] and for any object that is false,
    or what reading the object's host name or converting its port raises.
    When it returns, every sender and receiver given was true, and the
    message holds its host name and port. *)
Theorem OscMessage_init_errors
    (p : string) (given : list given_arg) (kw : keywords) :
  match OscMessage_init p given kw with
  | Raise e =>
      (e = Exn TypeError "Lenght of args and types must match"
       /\ has_types (kw_types kw) = true
       /\ length (default [] (kw_types kw)) <> length given)
      \/ ((has_types (kw_types kw) = true ->
           length (default [] (kw_types kw)) = length given)
          /\ exists o,
               (kw_sender kw = Some o \/ kw_receiver kw = Some o)
               /\ address_refused o e)
  | Return m =>
      (has_types (kw_types kw) = true ->
       length (default [] (kw_types kw)) = length given)
      /\ address_built (kw_sender kw) (sender m)
      /\ address_built (kw_receiver kw) (receiver m)
  end.
Proof.
  unfold OscMessage_init. rewrite length_map.
  assert (Hlen : has_types (kw_types kw)
                 && negb (length (default [] (kw_types kw)) =? length given)%nat
                 = false ->
                 has_types (kw_types kw) = true ->
                 length (default [] (kw_types kw)) = length given).
  { intros H Ht. rewrite Ht in H. cbn [andb] in H.
    apply negb_false_iff in H. now apply Nat.eqb_eq. }
  destruct (has_types (kw_types kw)
            && negb (length (default [] (kw_types kw)) =? length given)%nat)
    eqn:Hmis.
  - left. apply andb_prop in Hmis as [Ht Hne]. repeat split; [exact Ht|].
    apply negb_true_iff in Hne. now apply Nat.eqb_neq.
  - specialize (Hlen eq_refl).
    destruct (address_keyword (kw_sender kw)) as [s|e] eqn:Hs; cbn.
    + destruct (address_keyword (kw_receiver kw)) as [r|e] eqn:Hr; cbn.
      * repeat split; [exact Hlen | |]; now apply address_keyword_returns.
      * right. split; [exact Hlen|].
        unfold address_keyword in Hr.
        destruct (kw_receiver kw) as [o|]; [|discriminate].
        exists o. split; [now right|]. apply OscAddress_init_raises.
        destruct (OscAddress_init o None None); [discriminate|].
        cbn in Hr. congruence.
    + right. split; [exact Hlen|].
      unfold address_keyword in Hs.
      destruct (kw_sender kw) as [o|]; [|discriminate].
      exists o. split; [now left|]. apply OscAddress_init_raises.
      destruct (OscAddress_init o None None); [discriminate|].
      cbn in Hs. congruence.
Qed.

(** A message as the constructor returns it reaches the wire whole:
    [to_message] keeps the path and every argument, in order. *)
Theorem to_message_keeps_arguments
    (p : string) (given : list given_arg) (kw : keywords) (m : message) :
  OscMessage_init p given kw = Return m ->
  m_path (to_message m) = p
  /\ map snd (m_args (to_message m)) = map init_arg given.
Proof.
  intros H. apply OscMessage_init_returns in H as (Hmsg & _ & Hlen).
  unfold to_message. destruct (has_types (types m)) eqn:Ht; cbn.
  - rewrite (zip_types_snd _ _ (Hlen eq_refl)), Hmsg. split; reflexivity.
  - rewrite map_map, Hmsg. cbn. rewrite map_id. split; reflexivity.
Qed.

Lemma to_message_keeps_arguments_example :
  let kw := {| kw_types := Some ["s"; "f"]%char; kw_sender := None;
               kw_receiver := None |} in
  let given := [value (arg_str "drive.velocity"); value (arg_float 12.5)] in
  let m := {| msg := {| path := "/machine/set";
                        args := [arg_str "drive.velocity"; arg_float 12.5] |};
              types := Some ["s"; "f"]%char; sender := None;
              receiver := None |} in
  m_path (to_message m) = "/machine/set"
  /\ map snd (m_args (to_message m)) = map init_arg given.
Proof.
  cbv zeta.
  exact (to_message_keeps_arguments "/machine/set"
           [value (arg_str "drive.velocity"); value (arg_float 12.5)]
           {| kw_types := Some ["s"; "f"]%char; kw_sender := None;
              kw_receiver := None |} _ eq_refl).
Defined.

(** An argument appended with [+] to a message that was built with
    [types] never reaches the wire: [to_message] pairs arguments with type
    tags and stops at the last tag.  Without [types] it is sent last. *)
Theorem to_message_after_add
    (p : string) (given : list given_arg) (kw : keywords) (m : message)
    (v : arg) :
  OscMessage_init p given kw = Return m ->
  args (msg (add m v)) = args (msg m) ++ [v]
  /\ to_message (add m v)
     = if has_types (types m)
       then to_message m
       else {| m_path := m_path (to_message m);
               m_args := m_args (to_message m) ++ [(None, v)] |}.
Proof.
  intros H. apply OscMessage_init_returns in H as (_ & _ & Hlen).
  split; [reflexivity|].
  unfold to_message, add. cbn [types msg path args].
  destruct (has_types (types m)) eqn:Ht.
  - rewrite zip_types_snoc; [reflexivity|].
    rewrite (Hlen eq_refl). lia.
  - cbn. now rewrite map_app.
Qed.

Lemma to_message_after_add_example :
  let m := {| msg := {| path := "/machine/get"; args := [arg_str "a"] |};
              types := Some ["s"]%char; sender := None; receiver := None |} in
  args (msg (add m (arg_int 7))) = args (msg m) ++ [arg_int 7]
  /\ to_message (add m (arg_int 7))
     = if has_types (types m)
       then to_message m
       else {| m_path := m_path (to_message m);
               m_args := m_args (to_message m) ++ [(None, arg_int 7)] |}.
Proof.
  cbv zeta.
  exact (to_message_after_add "/machine/get" [value (arg_str "a")]
           {| kw_types := Some ["s"]%char; kw_sender := None;
              kw_receiver := None |} _ (arg_int 7) eq_refl).
Defined.

(** Appending an argument leaves the uid as it was, for a message that
    has an argument already and for a ping-style message. *)
Theorem uid_after_add (m : message) (v : arg) :
  args (msg m) <> [] \/ is_ping (msg m) = true ->
  uid (msg (add m v)) = uid (msg m).
Proof.
  unfold uid, is_ping, clean_path, add. cbn [msg path args].
  intros [Hargs|Hping].
  - destruct (args (msg m)) as [|a l]; [congruence | reflexivity].
  - now rewrite Hping.
Qed.

Lemma uid_after_add_example :
  let m := {| msg := {| path := "/machine/get/ok"; args := [arg_str "a"] |};
              types := None; sender := None; receiver := None |} in
  (args (msg m) <> [] \/ is_ping (msg m) = true)
  /\ uid (msg (add m (arg_str "12.5"))) = uid (msg m).
Proof.
  cbv zeta. split; [left; discriminate|].
  apply (uid_after_add
           {| msg := {| path := "/machine/get/ok"; args := [arg_str "a"] |};
              types := None; sender := None; receiver := None |}
           (arg_str "12.5")).
  left. discriminate.
Defined.

(** A message built with an exception as its first argument has a uid:
    the exception was turned into its text, so joining never fails. *)
Theorem uid_of_exception_message
    (p : string) (e : exn) (rest : list given_arg) (kw : keywords)
    (m : message) :
  OscMessage_init p (exception e :: rest) kw = Return m ->
  uid (msg m)
  = Return (if is_ping (msg m) then clean_path (msg m)
            else String.append (clean_path (msg m))
                               (String.append " " (str e))).
Proof.
  intros H. apply OscMessage_init_returns in H as (Hmsg & _ & _).
  unfold uid, is_ping. rewrite Hmsg. cbn [args map init_arg].
  destruct (Str.contains "/ping" _); reflexivity.
Qed.

Lemma uid_of_exception_message_example :
  let e := Exn KeyError "unknown key" in
  let m := {| msg := {| path := "/machine/get/error";
                        args := [arg_str "unknown key"] |};
              types := None; sender := None; receiver := None |} in
  uid (msg m)
  = Return (if is_ping (msg m) then clean_path (msg m)
            else String.append (clean_path (msg m))
                               (String.append " " (str e))).
Proof.
  cbv zeta.
  exact (uid_of_exception_message "/machine/get/error"
           (Exn KeyError "unknown key") []
           {| kw_types := None; kw_sender := None; kw_receiver := None |}
           _ eq_refl).
Defined.

End OscMessageFacts.

(** ** Machine commands: replies, frame and key collisions *)

Section MachineCommandsMore.

Import MachineCommands.

Section AnyMachineMore.

Context {M : Type} `{Machine M}.

(** With at most two arguments [machine.set] sends exactly one reply and
    lets no exception out, whatever the machine does. *)
Theorem MachineSet_at_most_two_one_reply (m : M) (args : list string) :
  (length args <= 2)%nat ->
  length (outlet (MachineSet.execute m args)) = 1%nat
  /\ escaped (MachineSet.execute m args) = None.
Proof.
  intros Hlen. destruct args as [|k [|v [|x rest]]]; cbn in Hlen; try lia.
  - split; reflexivity.
  - split; reflexivity.
  - unfold MachineSet.execute, MachineSet.try_body, except_Exception. cbn.
    destruct (setitem m (canonical_key k) v); cbn; split; reflexivity.
Qed.

(** On a machine where a write under one key leaves every other key as it
    was, [machine.set] on a key leaves the answer of [machine.get] on
    another key unchanged, unless the two keys differ only in their
    delimiters. *)
Theorem MachineSet_keeps_other_paths (m : M) (k1 k2 v : string) :
  (forall m0 m1 nk nk' x,
      nk <> nk' -> setitem m0 nk x = Return m1 ->
      getitem m1 nk' = getitem m0 nk') ->
  canonical_key k1 <> canonical_key k2 ->
  outlet (MachineGet.execute (machine (MachineSet.execute m [k2; v])) [k1])
  = outlet (MachineGet.execute m [k1]).
Proof.
  intros Hframe Hne.
  unfold MachineSet.execute, MachineSet.try_body, except_Exception. cbn.
  destruct (setitem m (canonical_key k2) v) as [m'|e] eqn:E; cbn;
    [|reflexivity].
  unfold MachineGet.execute, MachineGet.try_body, except_Exception. cbn.
  rewrite (Hframe m m' (canonical_key k2) (canonical_key k1) v);
    [| congruence | exact E].
  destruct (getitem m (canonical_key k1)); reflexivity.
Qed.

End AnyMachineMore.

Lemma MachineSet_one_reply_for_pair :
  (length ["drive.velocity"; "12.5"] <= 2)%nat
  /\ length (outlet (MachineSet.execute (∅ : gmap string string)
                                        ["drive.velocity"; "12.5"])) = 1%nat
  /\ escaped (MachineSet.execute (∅ : gmap string string)
                                 ["drive.velocity"; "12.5"]) = None.
Proof.
  split; [cbn; lia|].
  apply (MachineSet_at_most_two_one_reply
           (∅ : gmap string string) ["drive.velocity"; "12.5"]).
  cbn. lia.
Defined.

Lemma MachineSet_keeps_drive_velocity :
  let m : gmap string string := {[ "drive:velocity" := "12.5" ]} in
  outlet (MachineGet.execute
            (machine (MachineSet.execute m ["drive.torque"; "3"]))
            ["drive.velocity"])
  = outlet (MachineGet.execute m ["drive.velocity"]).
Proof.
  cbv zeta.
  apply (MachineSet_keeps_other_paths
           ({[ "drive:velocity" := "12.5" ]} : gmap string string)
           "drive.velocity" "drive.torque" "3").
  - intros m0 m1 nk nk' x Hne Hset. cbn in Hset. injection Hset as <-.
    cbn. now rewrite lookup_insert_ne.
  - discriminate.
Defined.

Lemma canonical_char_same (c d : ascii) :
  (if Ascii.eqb c "." then ":"%char else c)
  = (if Ascii.eqb d "." then ":"%char else d) ->
  Ascii.eqb c d || (is_delimiter c && is_delimiter d) = true.
Proof.
  unfold is_delimiter.
  destruct (Ascii.eqb_spec c ".") as [->|Hc],
           (Ascii.eqb_spec d ".") as [->|Hd]; intros Heq; cbn.
  - reflexivity.
  - subst d. reflexivity.
  - subst c. apply orb_true_r.
  - subst d. now rewrite Ascii.eqb_refl.
Qed.

(** Two keys have the same canonical key exactly when they differ at most
    in which delimiter stands where: keys that differ in any other
    character never address the same path. *)
Theorem canonical_key_same_iff (k1 k2 : string) :
  canonical_key k1 = canonical_key k2
  <-> same_up_to_delimiters k1 k2 = true.
Proof.
  split; [|apply canonical_key_delimiters].
  revert k2. induction k1 as [|c k1 IH]; intros [|d k2] Heq;
    try discriminate; [reflexivity|].
  rewrite !canonical_key_cons in Heq. injection Heq as Hc Hk.
  cbn [same_up_to_delimiters].
  now rewrite (canonical_char_same c d Hc), (IH k2 Hk).
Qed.

End MachineCommandsMore.

(** ** The thermal watcher in any state *)

Section TempWatcherMore.

Import Gpio.
Import Gpio.TempWatcher.

Lemma keeps_fan_ret {A} (a : A) : keeps_fan (ret a).
Proof. intros s. reflexivity. Qed.

Lemma keeps_fan_raise {A} (e : exn) : keeps_fan (@raise A e).
Proof. intros s. reflexivity. Qed.

Lemma keeps_fan_lift {A} (r : pyresult A) : keeps_fan (lift r).
Proof. intros s. reflexivity. Qed.

Lemma keeps_fan_getattr (name : string) : keeps_fan (getattr name).
Proof. intros s. unfold getattr. destruct (attrs s !! name); reflexivity. Qed.

Lemma keeps_fan_setattr (name : string) (v : float) :
  keeps_fan (setattr name v).
Proof. intros s. reflexivity. Qed.

Lemma keeps_fan_bind {A B} (c : M A) (k : A -> M B) :
  keeps_fan c -> (forall a, keeps_fan (k a)) -> keeps_fan (bind c k).
Proof.
  intros Hc Hk s. unfold bind. specialize (Hc s).
  destruct (c s) as [s' [a|e]]; cbn [fst] in *.
  - now rewrite Hk.
  - exact Hc.
Qed.

Lemma keeps_fan_logging_error (errno : Z) (strerror : string) :
  keeps_fan (logging_error errno strerror).
Proof. intros s. reflexivity. Qed.

Lemma keeps_fan_get_temperature (f : sensor_file) :
  keeps_fan (get_temperature f).
Proof.
  intros s. destruct f as [raw|text|errno strerror|errno strerror];
    try reflexivity.
  unfold get_temperature, bind, lift.
  destruct (voltage_to_resistance _); reflexivity.
Qed.

Lemma keeps_fan_get_error (f : sensor_file) : keeps_fan (get_error f).
Proof.
  unfold get_error.
  repeat first [ apply keeps_fan_bind; [|intros ?]
               | apply keeps_fan_getattr | apply keeps_fan_setattr
               | apply keeps_fan_get_temperature ].
Qed.

(** [self.p()] raises in every state: [p] is no method of the class, and
    an instance attribute of that name is a number. *)
Lemma get_pid_raises (s : t) : exists e, get_pid s = (s, Raise e).
Proof.
  unfold get_pid, bind, call_method.
  destruct (attrs s !! "p"); eexists; reflexivity.
Qed.

Lemma set_pid_raises (f : sensor_file) (s : t) :
  exists e s',
    set_pid f s = (s', Raise e) /\ duty_cycles s' = duty_cycles s.
Proof.
  pose proof (keeps_fan_get_error f s) as Hfan.
  unfold set_pid, bind.
  destruct (get_error f s) as [s' [[]|e]]; cbn [fst] in Hfan.
  - destruct (get_pid_raises s') as [e He]. rewrite He.
    exists e, s'. split; [reflexivity | exact Hfan].
  - exists e, s'. split; [reflexivity | exact Hfan].
Qed.

(** In no state does a tick reach the fan: whatever the instance
    attributes are bound to and whatever the sensor file does, [set_pid]
    ends in an exception and hands [set_duty_cycle] nothing. *)
Theorem set_pid_raises_in_every_state (f : sensor_file) (s : t) :
  (exists e, snd (set_pid f s) = Raise e)
  /\ duty_cycles (fst (set_pid f s)) = duty_cycles s.
Proof.
  destruct (set_pid_raises f s) as (e & s' & Heq & Hfan).
  rewrite Heq. cbn [fst snd]. split; [now exists e | exact Hfan].
Qed.

(** Reading the temperature changes nothing of the watcher, and it gives
    a value only when the sensor file read as a number: a failed [open], a
    failed [read] and a text that is no number all end in an exception. *)
Theorem get_temperature_keeps_watcher (f : sensor_file) (s : t) :
  fst (get_temperature f s) = s
  /\ (forall v, snd (get_temperature f s) = Return v ->
                exists raw, f = reads_number raw).
Proof.
  destruct f as [raw|text|errno strerror|errno strerror].
  - split; [|intros v _; now exists raw].
    unfold get_temperature, bind, lift.
    destruct (voltage_to_resistance _); reflexivity.
  - split; [reflexivity | discriminate].
  - split; [reflexivity | discriminate].
  - split; [reflexivity | discriminate].
Qed.

End TempWatcherMore.

(** ** The error state of the thermal watcher *)

Section TempWatcherErrorState.

Import Gpio.
Import Gpio.TempWatcher.

Lemma get_error_result (raw temperature e0 tg sum : float) (s : t) :
  attrs s !! "error" = Some e0 ->
  attrs s !! "target" = Some tg ->
  attrs s !! "error_sum" = Some sum ->
  voltage_to_resistance
    (PrimFloat.mul (PrimFloat.div raw 4095.0%float) 1.8%float)
  = Return temperature ->
  get_error (reads_number raw) s
  = ({| sensor := sensor s; fan_pin := fan_pin s;
        attrs :=
          <["error_delta" := PrimFloat.sub (PrimFloat.sub tg temperature) e0]>
          (<["error_sum" := PrimFloat.add sum (PrimFloat.sub tg temperature)]>
          (<["error" := PrimFloat.sub tg temperature]>
          (<["error_last" := e0]> (attrs s))));
        duty_cycles := duty_cycles s; logged := logged s |}, Return tt).
Proof.
  intros He Ht Hs Hv.
  unfold get_error, get_temperature, bind, getattr, setattr, lift, ret.
  repeat (cbn [attrs sensor fan_pin duty_cycles logged resistance_to_degrees];
          first [ rewrite lookup_insert_eq
                | rewrite lookup_insert_ne by discriminate
                | rewrite He | rewrite Ht | rewrite Hs | rewrite Hv ]).
  cbn [attrs sensor fan_pin duty_cycles logged resistance_to_degrees].
  reflexivity.
Qed.

(** On a watcher whose [error], [target] and [error_sum] are bound, at a
    tick where the sensor file reads as a number, [get_error] returns and
    leaves: [error_last] the old error, [error] the target minus the
    temperature, [error_sum] the old sum plus the new error, [error_delta]
    the new error minus the old one; every other attribute, the fan and
    the log are as they were. *)
Theorem get_error_updates_error_state
    (raw temperature e0 tg sum : float) (s : t) :
  attrs s !! "error" = Some e0 ->
  attrs s !! "target" = Some tg ->
  attrs s !! "error_sum" = Some sum ->
  voltage_to_resistance
    (PrimFloat.mul (PrimFloat.div raw 4095.0%float) 1.8%float)
  = Return temperature ->
  let s' := fst (get_error (reads_number raw) s) in
  let e1 := PrimFloat.sub tg temperature in
  snd (get_error (reads_number raw) s) = Return tt
  /\ attrs s' !! "error_last" = Some e0
  /\ attrs s' !! "error" = Some e1
  /\ attrs s' !! "error_sum" = Some (PrimFloat.add sum e1)
  /\ attrs s' !! "error_delta" = Some (PrimFloat.sub e1 e0)
  /\ (forall name,
         name ∉ error_attributes -> attrs s' !! name = attrs s !! name)
  /\ duty_cycles s' = duty_cycles s
  /\ logged s' = logged s.
Proof.
  intros He Ht Hs Hv. cbv zeta.
  rewrite (get_error_result raw temperature e0 tg sum s He Ht Hs Hv).
  cbn [fst snd attrs duty_cycles logged].
  repeat split.
  - now rewrite !lookup_insert_ne by discriminate; rewrite lookup_insert_eq.
  - now rewrite !lookup_insert_ne by discriminate; rewrite lookup_insert_eq.
  - now rewrite !lookup_insert_ne by discriminate; rewrite lookup_insert_eq.
  - now rewrite lookup_insert_eq.
  - intros name Hname. unfold error_attributes in Hname.
    rewrite !not_elem_of_cons in Hname.
    destruct Hname as (H1 & H2 & H3 & H4 & _).
    now rewrite !lookup_insert_ne by congruence.
Qed.

Lemma get_error_updates_error_state_example :
  let s0 := init "/sys/bus/iio/devices/iio:device0/in_voltage0_raw" "P8_13"
                 40%float in
  let s := {| sensor := sensor s0; fan_pin := fan_pin s0;
              attrs := <["error" := 1%float]>
                       (<["target" := 40%float]>
                       (<["error_sum" := 2%float]> (attrs s0)));
              duty_cycles := []; logged := [] |} in
  let s' := fst (get_error (reads_number 0%float) s) in
  let e1 := PrimFloat.sub 40%float 10000000%float in
  snd (get_error (reads_number 0%float) s) = Return tt
  /\ attrs s' !! "error_last" = Some 1%float
  /\ attrs s' !! "error" = Some e1
  /\ attrs s' !! "error_sum" = Some (PrimFloat.add 2%float e1)
  /\ attrs s' !! "error_delta" = Some (PrimFloat.sub e1 1%float)
  /\ (forall name,
         name ∉ error_attributes -> attrs s' !! name = attrs s !! name)
  /\ duty_cycles s' = duty_cycles s
  /\ logged s' = logged s.
Proof.
  cbv zeta.
  exact (get_error_updates_error_state
           0%float 10000000%float 1%float 40%float 2%float
           {| sensor := "/sys/bus/iio/devices/iio:device0/in_voltage0_raw";
              fan_pin := "P8_13";
              attrs :=
                <["error" := 1%float]>
                (<["target" := 40%float]>
                (<["error_sum" := 2%float]>
                   (attrs (init
                             "/sys/bus/iio/devices/iio:device0/in_voltage0_raw"
                             "P8_13" 40%float))));
              duty_cycles := []; logged := [] |}
           eq_refl eq_refl eq_refl eq_refl).
Defined.

End TempWatcherErrorState.

(** ** Polling the switches twice *)

Section SwitchMore.

Import Gpio.

Lemma event_after_event_detected (g : GPIO) (p q : string) :
  event (pin_of g q) = false ->
  event (pin_of (snd (event_detected g p)) q) = false.
Proof.
  intros Hq. destruct (decide (p = q)) as [->|Hne].
  - unfold event_detected, pin_of. cbn [snd]. now rewrite lookup_insert_eq.
  - now rewrite pin_of_event_detected_other.
Qed.

Lemma event_cleared_by_event_detected (g : GPIO) (p : string) :
  event (pin_of (snd (event_detected g p)) p) = false.
Proof.
  unfold event_detected, pin_of. cbn [snd]. now rewrite lookup_insert_eq.
Qed.

(** Polling sets no flag. *)
Lemma poll_pins_sets_no_flag (mdb : bool) (pins : list SwitchHandler) :
  forall (g : GPIO) (sent : list trigger) (q : string),
    event (pin_of g q) = false ->
    event (pin_of (gpio_after (poll_pins mdb pins g sent)) q) = false.
Proof.
  induction pins as [|h pins IH]; intros g sent q Hq; cbn [poll_pins].
  - exact Hq.
  - rewrite update_state_spec.
    pose proof (event_after_event_detected g (pin h) q Hq) as Hq'.
    destruct (event (pin_of g (pin h))).
    + cbn [action state set_state].
      destruct mdb; [destruct (action h)|]; cbn [gpio_after]; auto.
    + cbn [gpio_after]. auto.
Qed.

(** A pass that ends normally leaves the flag of every polled pin clear. *)
Lemma poll_pins_clears_flags (pins : list SwitchHandler) :
  forall (g : GPIO) (sent : list trigger),
    forallb has_action pins = true ->
    Forall (fun h => event (pin_of (gpio_after (poll_pins true pins g sent))
                                   (pin h))
                     = false)
           (pins_after (poll_pins true pins g sent)).
Proof.
  induction pins as [|h pins IH]; intros g sent Hact; cbn [poll_pins].
  - constructor.
  - cbn [forallb] in Hact. apply andb_prop in Hact as [Hh Hact].
    unfold has_action in Hh.
    destruct (action h) as [a|] eqn:Ea; [|discriminate].
    rewrite update_state_spec.
    pose proof (event_cleared_by_event_detected g (pin h)) as Hclear.
    destruct (event (pin_of g (pin h))).
    + cbn [action state set_state]. rewrite Ea.
      cbn [pins_after gpio_after]. constructor.
      * cbn [pin set_state]. now apply poll_pins_sets_no_flag.
      * now apply IH.
    + cbn [pins_after gpio_after]. constructor.
      * now apply poll_pins_sets_no_flag.
      * now apply IH.
Qed.

(** Where no polled pin has its flag set, a pass does nothing. *)
Lemma poll_pins_quiet (mdb : bool) (pins : list SwitchHandler) :
  forall (g : GPIO) (sent : list trigger),
    Forall (fun h => event (pin_of g (pin h)) = false) pins ->
    poll_end (poll_pins mdb pins g sent) = Return tt
    /\ submitted (poll_pins mdb pins g sent) = sent
    /\ pins_after (poll_pins mdb pins g sent) = pins.
Proof.
  induction pins as [|h pins IH]; intros g sent Hquiet; cbn [poll_pins].
  - repeat split.
  - inversion Hquiet as [|? ? Hh Hrest]; subst.
    rewrite update_state_spec, Hh.
    destruct (IH (snd (event_detected g (pin h))) sent) as (Hend & Hsub & Hpins).
    + apply Forall_forall. intros h' Hin.
      apply event_after_event_detected.
      rewrite Forall_forall in Hrest. now apply Hrest.
    + cbn [poll_end submitted pins_after].
      rewrite Hend, Hsub, Hpins. repeat split.
Qed.

(** An edge is reported once: on a server that has its [mdb_request], a
    second pass made right after a first one, with no edge in between,
    ends normally, submits no trigger and leaves every handler as it
    was. *)
Theorem detect_gpio_state_reports_an_edge_once
    (self : RemoteServer) (pins : list SwitchHandler) (g : GPIO) :
  mdb_request self = true ->
  switch_pins self = Some pins ->
  forallb has_action pins = true ->
  let first := detect_gpio_state self g in
  let second :=
    detect_gpio_state
      {| switchs := switchs self; switch_pins := Some (pins_after first);
         mdb_request := mdb_request self |}
      (gpio_after first) in
  poll_end first = Return tt
  /\ poll_end second = Return tt
  /\ submitted second = []
  /\ pins_after second = pins_after first.
Proof.
  intros Hmdb Hpins Hact. cbv zeta. unfold detect_gpio_state at 2 4 5.
  cbn [switch_pins mdb_request]. unfold detect_gpio_state.
  rewrite Hpins, Hmdb. split.
  - clear Hpins. revert g. generalize (@nil trigger).
    induction pins as [|h pins IH]; intros sent g; [reflexivity|].
    cbn [forallb] in Hact. apply andb_prop in Hact as [Hh Hact].
    unfold has_action in Hh.
    destruct (action h) as [a|] eqn:Ea; [|discriminate].
    cbn [poll_pins]. rewrite update_state_spec.
    destruct (event (pin_of g (pin h))).
    + cbn [action state set_state]. rewrite Ea. cbn [poll_end]. now apply IH.
    + cbn [poll_end]. now apply IH.
  - apply poll_pins_quiet. now apply poll_pins_clears_flags.
Qed.

Lemma detect_gpio_state_reports_an_edge_once_example :
  let stop := {| name := 0; pin := "P8_10"; callback := Some "stop";
                 invert := false; action := Some "stop"; state := None |} in
  let self := {| switchs := None; switch_pins := Some [stop];
                 mdb_request := true |} in
  let g : GPIO := toggle ∅ "P8_10" in
  let first := detect_gpio_state self g in
  let second :=
    detect_gpio_state
      {| switchs := switchs self; switch_pins := Some (pins_after first);
         mdb_request := mdb_request self |}
      (gpio_after first) in
  submitted first = [("stop", true)]
  /\ poll_end first = Return tt
  /\ poll_end second = Return tt
  /\ submitted second = []
  /\ pins_after second = pins_after first.
Proof.
  cbv zeta. split; [reflexivity|].
  exact (detect_gpio_state_reports_an_edge_once
           {| switchs := None;
              switch_pins :=
                Some [ {| name := 0; pin := "P8_10"; callback := Some "stop";
                          invert := false; action := Some "stop";
                          state := None |} ];
              mdb_request := true |}
           _ (toggle ∅ "P8_10") eq_refl eq_refl eq_refl).
Defined.

End SwitchMore.

(** ** The remote server *)

Section ServerFacts.

Import Gpio.
Import Gpio.Server.

(** No handler is ever built: [key_code] is unbound. *)
Lemma SwitchHandler_init_raises (rest : pyresult SwitchHandler) :
  SwitchHandler_init rest
  = Raise (Exn NameError "name 'key_code' is not defined").
Proof. reflexivity. Qed.

Lemma build_switches_fails (c : collaborators) (i : nat) (p : string)
    (pins : list string) (sw : list SwitchHandler) :
  exists f, build_switches c i (p :: pins) sw = inr f.
Proof.
  cbn [build_switches].
  destruct (config_get c (switch_section i) "action") as [f|]; [now exists f|].
  destruct (config_get c (switch_section i) "reverse") as [f|]; [now exists f|].
  rewrite SwitchHandler_init_raises. now eexists.
Qed.

(** In fake mode the [try] of [run] builds nothing and clears the event. *)
Lemma configure_fake (c : collaborators) (self : t) :
  fake_mode self = true ->
  configure c self = (clear_restart_event self, None).
Proof.
  intros Hfake. unfold configure, create_switch_pins, create_temp_watchers.
  rewrite Hfake. cbn [negb]. rewrite Hfake. cbn [negb].
  rewrite andb_false_r. reflexivity.
Qed.

(** Out of fake mode it raises before anything is bound. *)
Lemma configure_real (c : collaborators) (self : t) :
  fake_mode self = false ->
  exists f, configure c self = (self, Some f).
Proof.
  intros Hfake. unfold configure, create_switch_pins. rewrite Hfake.
  cbn [negb]. unfold SWITCH_PINS.
  destruct (build_switches_fails c 0 "P8_10" ["P8_11"] []) as [f Hf].
  rewrite Hf. now exists f.
Qed.

Lemma run_fake (c : collaborators) (init : bool) (self : t) (w : world) :
  fake_mode self = true ->
  exists self',
    run c init self w = (self', w, None)
    /\ fake_mode self' = true
    /\ handlers self' = handlers self
    /\ temp_watchers self' = temp_watchers self
    /\ (restart_event self' = restart_event self
        \/ restart_event self' = Some false).
Proof.
  intros Hfake. unfold run.
  destruct (restart_requested self || init) eqn:Hcond.
  - assert (Hfake' : fake_mode (if negb init then lg_info self else self) = true)
      by (destruct init; exact Hfake).
    rewrite (configure_fake c _ Hfake'). cbn [except_configure].
    cbn [fake_mode clear_restart_event]. rewrite Hfake'. cbn [negb].
    eexists. split; [reflexivity|]. cbn.
    destruct init; cbn; repeat split; try exact Hfake;
      destruct (restart_event self); auto.
  - rewrite Hfake. cbn [negb]. exists self. repeat split; auto.
Qed.

Lemma run_init_real (c : collaborators) (self : t) (w : world) :
  fake_mode self = false ->
  exists f, run c true self w = (self, w, Some f).
Proof.
  intros Hfake. unfold run. rewrite orb_true_r. cbn [negb].
  destruct (configure_real c self Hfake) as [f Hf]. rewrite Hf.
  cbn [except_configure].
  destruct (is_NameError_or_RuntimeError c f).
  - destruct (RemoteError_new c) as [f'|]; now eexists.
  - now exists f.
Qed.

(** Whenever the constructor returns, the server is in fake mode: it has
    bound no switch handler and no temperature watcher, logged nothing,
    and left the pins and the triggers as they were.  This holds whatever
    the keywords are and whatever the collaborators do. *)
Theorem RemoteServer_init_ends_in_fake_mode
    (c : collaborators) (kw : keywords) (w w' : world) (self : t) :
  init c kw w = inl (self, w') ->
  fake_mode self = true
  /\ handlers self = {| switchs := None; switch_pins := None;
                        mdb_request := kw_modbus kw |}
  /\ temp_watchers self = None
  /\ infos self = []
  /\ w' = w.
Proof.
  unfold init.
  destruct (if kw_modbus kw then ModbusRequest_new c else None);
    [discriminate|].
  destruct (ConfigRequest_new c); [discriminate|].
  set (self0 := {| fake_mode := default false (kw_fake_mode kw);
                   restart_event := kw_restart_event kw;
                   handlers := {| switchs := None; switch_pins := None;
                                  mdb_request := kw_modbus kw |};
                   temp_watchers := None; infos := [] |}).
  destruct (fake_mode self0) eqn:Hfake.
  - destruct (run_fake c true self0 w Hfake) as (s' & Hrun & H1 & H2 & H3 & _).
    rewrite Hrun. intros Heq. injection Heq as <- <-.
    repeat split; auto.
    unfold run in Hrun. rewrite orb_true_r in Hrun. cbn [negb] in Hrun.
    rewrite (configure_fake c self0 Hfake) in Hrun.
    cbn [except_configure fake_mode clear_restart_event] in Hrun.
    rewrite Hfake in Hrun. cbn [negb] in Hrun.
    injection Hrun as <-. reflexivity.
  - destruct (run_init_real c self0 w Hfake) as [f Hrun]. rewrite Hrun.
    destruct (is_RemoteError f); [|discriminate].
    set (self2 := {| fake_mode := true; restart_event := restart_event self0;
                     handlers := handlers self0;
                     temp_watchers := temp_watchers self0;
                     infos := infos self0 |}).
    unfold run. rewrite orb_true_r. cbn [negb].
    rewrite (configure_fake c self2 eq_refl).
    cbn [except_configure fake_mode clear_restart_event self2 negb].
    intros Heq. injection Heq as <- <-. repeat split.
Qed.

Lemma RemoteServer_init_on_a_board :
  let kw := {| kw_fake_mode := None; kw_modbus := true;
               kw_restart_event := Some true |} in
  let w := {| gpio := ∅; triggers := [];
              sensor_files := fun _ => TempWatcher.reads_number 2000%float |} in
  let self := fake_server true (Some false) in
  init quiet_collaborators kw w = inl (self, w)
  /\ fake_mode self = true
  /\ handlers self = {| switchs := None; switch_pins := None;
                        mdb_request := true |}
  /\ temp_watchers self = None
  /\ infos self = []
  /\ w = w.
Proof.
  cbv zeta. split; [reflexivity|].
  apply (RemoteServer_init_ends_in_fake_mode
           quiet_collaborators
           {| kw_fake_mode := None; kw_modbus := true;
              kw_restart_event := Some true |}
           {| gpio := ∅; triggers := [];
              sensor_files := fun _ => TempWatcher.reads_number 2000%float |}
           {| gpio := ∅; triggers := [];
              sensor_files := fun _ => TempWatcher.reads_number 2000%float |}
           (fake_server true (Some false))).
  reflexivity.
Defined.

Lemma runs_fake (c : collaborators) (sets : list bool) :
  forall (self : t) (w : world),
    fake_mode self = true ->
    exists self',
      runs c sets self w = (self', w, None)
      /\ fake_mode self' = true
      /\ handlers self' = handlers self
      /\ temp_watchers self' = temp_watchers self.
Proof.
  induction sets as [|set sets IH]; intros self w Hfake; cbn [runs].
  - exists self. repeat split; auto.
  - set (self0 := {| fake_mode := fake_mode self;
                     restart_event := _; handlers := handlers self;
                     temp_watchers := temp_watchers self;
                     infos := infos self |}).
    destruct (run_fake c false self0 w Hfake) as (s1 & Hrun & H1 & H2 & H3 & _).
    rewrite Hrun.
    destruct (IH s1 w H1) as (s2 & Hruns & H4 & H5 & H6).
    exists s2. rewrite Hruns. repeat split; auto.
    + now rewrite H5, H2.
    + now rewrite H6, H3.
Qed.

(** A server the constructor returned never polls: every later call of
    [run()], whether or not the restart event was set in between, returns
    normally, submits no trigger, changes no pin and runs no tick of a
    temperature watcher, for there is none. *)
Theorem RemoteServer_never_polls
    (c : collaborators) (kw : keywords) (w w' : world) (self : t)
    (sets : list bool) :
  init c kw w = inl (self, w') ->
  exists self',
    runs c sets self w' = (self', w, None)
    /\ fake_mode self' = true
    /\ handlers self' = {| switchs := None; switch_pins := None;
                           mdb_request := kw_modbus kw |}
    /\ temp_watchers self' = None.
Proof.
  intros Hinit.
  (* the constructor's guarantees, read off its two calls of [run] *)
  assert (fake_mode self = true
          /\ handlers self = {| switchs := None; switch_pins := None;
                                mdb_request := kw_modbus kw |}
          /\ temp_watchers self = None /\ w' = w) as (Hf & Hh & Ht & ->).
  { revert Hinit. unfold init.
    destruct (if kw_modbus kw then ModbusRequest_new c else None);
      [discriminate|].
    destruct (ConfigRequest_new c); [discriminate|].
    set (self0 := {| fake_mode := default false (kw_fake_mode kw);
                     restart_event := kw_restart_event kw;
                     handlers := {| switchs := None; switch_pins := None;
                                    mdb_request := kw_modbus kw |};
                     temp_watchers := None; infos := [] |}).
    destruct (fake_mode self0) eqn:Hfake.
    - destruct (run_fake c true self0 w Hfake)
        as (s' & Hrun & H1 & H2 & H3 & _).
      rewrite Hrun. intros Heq. injection Heq as <- <-. auto.
    - destruct (run_init_real c self0 w Hfake) as [f Hrun]. rewrite Hrun.
      destruct (is_RemoteError f); [|discriminate].
      set (self2 := {| fake_mode := true;
                       restart_event := restart_event self0;
                       handlers := handlers self0;
                       temp_watchers := temp_watchers self0;
                       infos := infos self0 |}).
      destruct (run_fake c true self2 w eq_refl)
        as (s' & Hrun2 & H1 & H2 & H3 & _).
      rewrite Hrun2. intros Heq. injection Heq as <- <-. auto. }
  destruct (runs_fake c sets self w Hf) as (s' & Hruns & H1 & H2 & H3).
  exists s'. rewrite Hruns. repeat split; auto.
  - now rewrite H2.
  - now rewrite H3.
Qed.

Lemma RemoteServer_never_polls_on_a_board :
  let kw := {| kw_fake_mode := None; kw_modbus := true;
               kw_restart_event := Some true |} in
  let w := {| gpio := toggle ∅ "P8_10"; triggers := [];
              sensor_files := fun _ => TempWatcher.reads_number 2000%float |} in
  let self := fake_server true (Some false) in
  init quiet_collaborators kw w = inl (self, w)
  /\ exists self',
       runs quiet_collaborators [false; true; false] self w = (self', w, None)
       /\ fake_mode self' = true
       /\ handlers self' = {| switchs := None; switch_pins := None;
                              mdb_request := true |}
       /\ temp_watchers self' = None.
Proof.
  cbv zeta. split; [reflexivity|].
  apply (RemoteServer_never_polls
           quiet_collaborators
           {| kw_fake_mode := None; kw_modbus := true;
              kw_restart_event := Some true |}
           {| gpio := toggle ∅ "P8_10"; triggers := [];
              sensor_files := fun _ => TempWatcher.reads_number 2000%float |}
           {| gpio := toggle ∅ "P8_10"; triggers := [];
              sensor_files := fun _ => TempWatcher.reads_number 2000%float |}
           (fake_server true (Some false)) [false; true; false]).
  reflexivity.
Defined.

Lemma set_pids_spec (files : string -> TempWatcher.sensor_file)
    (tws : list TempWatcher.t) :
  exists tws' r,
    set_pids files tws = (tws', r)
    /\ map TempWatcher.duty_cycles tws' = map TempWatcher.duty_cycles tws
    /\ (r = Return tt -> tws = []).
Proof.
  destruct tws as [|tw rest].
  - exists [], (Return tt). repeat split.
  - cbn [set_pids].
    destruct (set_pid_raises (files (TempWatcher.sensor tw)) tw)
      as (e & tw' & Heq & Hfan).
    rewrite Heq. exists (tw' :: rest), (Raise e). repeat split.
    + cbn [map]. now rewrite Hfan.
    + discriminate.
Qed.

(** Out of fake mode [run] cannot complete either: on a server whose
    [fake_mode] was switched off and whose [switch_pins] is unbound, as
    gpio.py leaves it, every call of [run] ends in an exception, submits no
    trigger, changes no pin and hands no fan a duty cycle. *)
Theorem run_out_of_fake_mode_raises
    (c : collaborators) (init : bool) (self : t) (w : world) :
  fake_mode self = false ->
  switch_pins (handlers self) = None ->
  exists self' f,
    run c init self w = (self', w, Some f)
    /\ option_map (map TempWatcher.duty_cycles) (temp_watchers self')
       = option_map (map TempWatcher.duty_cycles) (temp_watchers self).
Proof.
  intros Hfake Hpins. unfold run.
  destruct (restart_requested self || init).
  - assert (Hfake' : fake_mode (if negb init then lg_info self else self)
                     = false) by (destruct init; exact Hfake).
    destruct (configure_real c _ Hfake') as [f Hf]. rewrite Hf.
    cbn [except_configure].
    destruct (is_NameError_or_RuntimeError c f);
      [destruct (RemoteError_new c)|];
      do 2 eexists; (split; [reflexivity|]); destruct init; reflexivity.
  - rewrite Hfake. cbn [negb]. unfold update_pid.
    destruct (temp_watchers self) as [tws|] eqn:Htws.
    + destruct (set_pids_spec (sensor_files w) tws)
        as (tws' & r & Hset & Hfan & Hempty).
      rewrite Hset. destruct r as [[]|e].
      * unfold poll, detect_gpio_state. cbn [handlers]. rewrite Hpins.
        cbn [poll_end gpio_after submitted]. rewrite app_nil_r.
        destruct w as [g tr files]. cbn [gpio triggers sensor_files].
        do 2 eexists. split; [reflexivity|].
        cbn [temp_watchers option_map]. now rewrite Hfan.
      * do 2 eexists. split; [reflexivity|].
        cbn [temp_watchers option_map]. now rewrite Hfan.
    + do 2 eexists. split; [reflexivity|]. now rewrite Htws.
Qed.

Lemma run_out_of_fake_mode_raises_example :
  let self := {| fake_mode := false; restart_event := None;
                 handlers := {| switchs := None; switch_pins := None;
                                mdb_request := false |};
                 temp_watchers :=
                   Some [TempWatcher.init "in_voltage0_raw" "P8_13" 40%float];
                 infos := [] |} in
  let w := {| gpio := toggle ∅ "P8_10"; triggers := [];
              sensor_files := fun _ => TempWatcher.reads_number 2000%float |} in
  exists self' f,
    run quiet_collaborators false self w = (self', w, Some f)
    /\ option_map (map TempWatcher.duty_cycles) (temp_watchers self')
       = option_map (map TempWatcher.duty_cycles) (temp_watchers self).
Proof.
  cbv zeta.
  apply (run_out_of_fake_mode_raises quiet_collaborators false
           {| fake_mode := false; restart_event := None;
              handlers := {| switchs := None; switch_pins := None;
                             mdb_request := false |};
              temp_watchers :=
                Some [TempWatcher.init "in_voltage0_raw" "P8_13" 40%float];
              infos := [] |}
           {| gpio := toggle ∅ "P8_10"; triggers := [];
              sensor_files := fun _ => TempWatcher.reads_number 2000%float |});
    reflexivity.
Defined.

End ServerFacts.
